(** * lingua-nostra: time helpers, English lexical tables, and the
      number / duration / date-time extraction contract.

    Layout
    - [Time]     : shallow embedding of [lingua_nostra/time.py].
    - [Lexicon]  : the tables of [lingua_nostra/lang/common_data_en.py].
    - [Parse]    : the extraction engine.  Its implementation module is not
                   part of the sources at hand (only its tables and its test
                   suite are), so every definition of [Parse] that stands
                   for engine code is written from the specification and
                   says so in its header comment.

    Numbers.  Python [int] is unbounded, so years are [Z].  Python [float]
    values are abstracted to exact rationals [Q]; rounding is not modelled. *)

From Stdlib Require Import ZArith QArith Qround Lia List Bool Ascii String.
Import ListNotations.

#[local] Open Scope Z_scope.

(* ================================================================== *)
(** * time.py                                                          *)
(* ================================================================== *)

Module Time.

(** ** Leap years *)

(** [is_leap_year(year)]:
    [(year % 400 == 0) or ((year % 4 == 0) and (year % 100 != 0))].
    Python's [%] with a positive divisor is the floor remainder, which is
    [Z.modulo]. *)
Definition is_leap_year (year : Z) : bool :=
  (year mod 400 =? 0) || ((year mod 4 =? 0) && negb (year mod 100 =? 0)).

(** [get_next_leap_year(year)] calls itself on [year + 1] until the
    successor is a leap year.  The recursion is on an unbounded integer, so
    the embedding carries fuel: [fuel] bounds the number of activations of
    the function.  The result is paired with the number of recursive calls
    that were made (0 when the very first successor is a leap year). *)
Fixpoint get_next_leap_year_fuel (fuel : nat) (year : Z) : option (Z * nat) :=
  match fuel with
  | O => None
  | S fuel' =>
      let next_year := year + 1 in
      if is_leap_year next_year then Some (next_year, O)
      else
        match get_next_leap_year_fuel fuel' next_year with
        | Some (found, calls) => Some (found, S calls)
        | None => None
        end
  end.

(** Eight activations always suffice (see [get_next_leap_year_total]), so
    the function itself is total. *)
Definition get_next_leap_year (year : Z) : Z :=
  match get_next_leap_year_fuel 8 year with
  | Some (found, _) => found
  | None => year
  end.

(** The number of leap years among the [n] years from [start] on; it
    is not part of the module and serves to state what [is_leap_year]
    amounts to over a span of years. *)
Definition leap_years_in (start : Z) (n : nat) : nat :=
  List.length
    (filter is_leap_year (map (fun i => start + Z.of_nat i) (seq 0 n))).

(** ** Time zones

    [datetime.tzinfo] is an abstract base class of the Python library; the
    module uses three things of a zone object: its identity ([is], inside
    [astimezone]), [utcoffset] and [fromutc].  Wall-clock readings are
    counted in microseconds from an arbitrary calendar origin; a reading
    comes with the [fold] flag of the library, which tells the two passes
    of a wall clock through a repeated hour apart. *)
Class TzInfo (tz : Type) : Type := {
  (** object identity, as tested by [tz is mytz] *)
  tz_is : tz -> tz -> bool;
  (** [tz.utcoffset(dt)] for the wall-clock reading and fold of [dt] *)
  utcoffset : tz -> Z -> bool -> Z;
  (** [tz.fromutc(dt)]: wall-clock reading and fold in [tz] of a UTC
      reading *)
  fromutc : tz -> Z -> Z * bool;
  (** [dateutil.tz.gettz(name)]; [None] for an unknown name *)
  gettz : string -> option tz;
  (** the UTC zone object of the library *)
  tz_utc : tz;
  (** [dateutil.tz.tzlocal()], the zone of the host system *)
  tzlocal : tz
}.

(** What the library documents about zone objects. *)
Class TzLaws (tz : Type) `{TzInfo tz} : Prop := {
  (** two names for one object denote one zone *)
  tz_is_eq : forall a b, tz_is a b = true -> a = b;
  (** [fromutc] yields the wall clock whose offset leads back to the
      UTC reading it came from *)
  fromutc_utcoffset :
    forall z u,
      fst (fromutc z u) - utcoffset z (fst (fromutc z u)) (snd (fromutc z u))
      = u;
  (** UTC has offset zero, and is what [gettz("UTC")] returns *)
  utc_offset_zero : forall w f, utcoffset tz_utc w f = 0;
  gettz_utc : gettz "UTC" = Some tz_utc
}.

Section Zones.

Context {tz : Type} `{TzInfo tz}.

(** A [datetime]: the wall-clock reading, its fold, and the optional
    zone. *)
Record datetime : Type := mkdt {
  wall : Z;
  fold : bool;
  tzinfo : option tz
}.

(** [dt.replace(tzinfo=z)] *)
Definition replace_tzinfo (dt : datetime) (z : tz) : datetime :=
  {| wall := wall dt; fold := fold dt; tzinfo := Some z |}.

(** [dt.astimezone(tz)] as the Python library defines it: without a
    target ([None]) the system zone is the target; a naive receiver is
    presumed to be in the system zone; when the receiver's zone is the
    target object itself the receiver is returned; otherwise the receiver
    is moved to UTC with its own offset and handed to the target's
    [fromutc]. *)
Definition astimezone (dt : datetime) (target : option tz) : datetime :=
  let target := match target with Some z => z | None => tzlocal end in
  let mytz := match tzinfo dt with Some z => z | None => tzlocal end in
  let myoffset := utcoffset mytz (wall dt) (fold dt) in
  if tz_is target mytz then dt
  else
    let local := fromutc target (wall dt - myoffset) in
    {| wall := fst local; fold := snd local; tzinfo := Some target |}.

(** The point on the UTC time line an aware datetime denotes. *)
Definition instant (dt : datetime) : option Z :=
  match tzinfo dt with
  | Some z => Some (wall dt - utcoffset z (wall dt) (fold dt))
  | None => None
  end.

(** ** The default-timezone registry: the module global [__default_tz] *)
Definition registry : Type := option tz.

Definition initial_registry : registry := None.

(** The argument of [set_default_tz]: a zone name, a zone object, or
    [None]. *)
Inductive tz_arg : Type :=
| TzName (name : string)
| TzObject (z : tz)
| TzNone.

(** [set_default_tz(tz)]: a [str] goes through [gettz] first. *)
Definition set_default_tz (_ : registry) (a : tz_arg) : registry :=
  match a with
  | TzName name => gettz name
  | TzObject z => Some z
  | TzNone => None
  end.

(** [default_timezone()]: [__default_tz or tzlocal()]; a zone object is
    truthy, so the right operand is taken exactly when the global is
    [None]: never set, set to [None], or set to a name [gettz] does not
    know. *)
Definition default_timezone (r : registry) : tz :=
  match r with
  | Some z => z
  | None => tzlocal
  end.

(** [to_utc(dt)] *)
Definition to_utc (r : registry) (dt : datetime) : datetime :=
  let z := gettz "UTC" in
  match tzinfo dt with
  | Some _ => astimezone dt z
  | None => astimezone (replace_tzinfo dt (default_timezone r)) z
  end.

(** [to_local(dt)] *)
Definition to_local (r : registry) (dt : datetime) : datetime :=
  let z := default_timezone r in
  match tzinfo dt with
  | Some _ => astimezone dt (Some z)
  | None => replace_tzinfo dt z
  end.

(** [to_system(dt)] *)
Definition to_system (r : registry) (dt : datetime) : datetime :=
  let z := tzlocal in
  match tzinfo dt with
  | Some _ => astimezone dt (Some z)
  | None => astimezone (replace_tzinfo dt (default_timezone r)) (Some z)
  end.

(** ** The current time

    The three [now_*] functions read the system clock through
    [datetime.now(tz)].  The reading is made a parameter: [clock] is the
    time of the call on the UTC time line, in microseconds.

    [datetime.now(tz)] as the Python library defines it: with a zone the
    UTC reading is handed to the zone's [fromutc]; without one ([None]) the
    result is the naive wall clock of the system zone. *)
Definition datetime_now (clock : Z) (target : option tz) : datetime :=
  match target with
  | Some z =>
      let local := fromutc z clock in
      {| wall := fst local; fold := snd local; tzinfo := Some z |}
  | None =>
      let local := fromutc tzlocal clock in
      {| wall := fst local; fold := snd local; tzinfo := None |}
  end.

(** [now_utc()] *)
Definition now_utc (clock : Z) : datetime :=
  datetime_now clock (gettz "UTC").

(** [now_local(tz=None)]: [if not tz: tz = default_timezone()]. *)
Definition now_local (r : registry) (clock : Z) (z : option tz)
  : datetime :=
  let z :=
    match z with
    | Some z => z
    | None => default_timezone r
    end in
  datetime_now clock (Some z).

(** [now_system()] *)
Definition now_system (clock : Z) : datetime :=
  datetime_now clock (Some tzlocal).

End Zones.

Arguments datetime tz : clear implicits.
Arguments registry tz : clear implicits.
Arguments tz_arg tz : clear implicits.

(** Zones with a constant offset, the simplest implementation of the
    interface: a zone is its offset in microseconds. *)
Definition hour_us : Z := 3600 * 1000000.

#[export] Instance fixed_offset_tz : TzInfo Z := {
  tz_is := Z.eqb;
  utcoffset := fun z _ _ => z;
  fromutc := fun z u => (u + z, false);
  gettz := fun name =>
    if String.eqb name "UTC" then Some 0
    else if String.eqb name "Etc/GMT-1" then Some hour_us
    else None;
  tz_utc := 0;
  tzlocal := 2 * hour_us
}.

End Time.

(* ================================================================== *)
(** * lang/common_data_en.py                                           *)
(* ================================================================== *)

Module Lexicon.

#[local] Open Scope string_scope.

(** ** Python containers, as far as the tables use them *)

(** The key of a scale table is an [int] literal or a [float] literal
    [1eN].  A binary64 float holds [1eN] up to [N = 308]; a literal beyond
    that evaluates to [inf]. *)
Inductive magnitude : Type :=
| Finite (n : Z)
| Infinity.

Definition magnitude_eqb (a b : magnitude) : bool :=
  match a, b with
  | Finite x, Finite y => Z.eqb x y
  | Infinity, Infinity => true
  | _, _ => false
  end.

(** The literal [1eN]. *)
Definition e (n : Z) : magnitude :=
  if Z.leb n 308 then Finite (10 ^ n) else Infinity.

(** A [dict] (or [OrderedDict]) as the list of its items in insertion
    order. *)
Definition dict (K V : Type) : Type := list (K * V).

(** [d[k] = v]: an existing key keeps its position and takes the new
    value, a new key goes to the end. *)
Fixpoint dict_set {K V : Type} (eqb : K -> K -> bool)
    (d : dict K V) (k : K) (v : V) : dict K V :=
  match d with
  | [] => [(k, v)]
  | (k', v') :: d' =>
      if eqb k' k then (k', v) :: d' else (k', v') :: dict_set eqb d' k v
  end.

(** [d.update(other)], also the constructor [OrderedDict(pairs)] applied
    to the empty dictionary. *)
Definition dict_update {K V : Type} (eqb : K -> K -> bool)
    (d other : dict K V) : dict K V :=
  fold_left (fun acc kv => dict_set eqb acc (fst kv) (snd kv)) other d.

Definition OrderedDict (pairs : list (magnitude * string))
  : dict magnitude string :=
  dict_update magnitude_eqb [] pairs.

Definition values {K V : Type} (d : dict K V) : list V := map snd d.

Fixpoint dict_get {V : Type} (d : dict string V) (k : string) : option V :=
  match d with
  | [] => None
  | (k', v) :: d' => if String.eqb k' k then Some v else dict_get d' k
  end.

(** [word in s] for a set or a dictionary keyed by strings. *)
Definition mem (w : string) (s : list string) : bool :=
  existsb (String.eqb w) s.

(** Modelled from the spec: [invert_dict], imported from
    [lang/parse_common.py], which is not among the sources.  Section 2
    describes the lexical tables as mappings from a word to its value
    ("word->integer", "word->scale-multiplier", "word->ordinal"): the
    function turns a table from values to words into one from words to
    values. *)
Definition invert_dict {K : Type} (d : dict K string) : dict string K :=
  map (fun kv => (snd kv, fst kv)) d.

(** ** The tables *)

Definition _ARTICLES_EN : list string := ["a"; "an"; "the"].

Definition _NUM_STRING_EN : dict Z string :=
  [ (0, "zero"); (1, "one"); (2, "two"); (3, "three"); (4, "four");
    (5, "five"); (6, "six"); (7, "seven"); (8, "eight"); (9, "nine");
    (10, "ten"); (11, "eleven"); (12, "twelve"); (13, "thirteen");
    (14, "fourteen"); (15, "fifteen"); (16, "sixteen"); (17, "seventeen");
    (18, "eighteen"); (19, "nineteen"); (20, "twenty"); (30, "thirty");
    (40, "forty"); (50, "fifty"); (60, "sixty"); (70, "seventy");
    (80, "eighty"); (90, "ninety") ].

Definition _FRACTION_STRING_EN : dict Z string :=
  [ (2, "half"); (3, "third"); (4, "forth"); (5, "fifth"); (6, "sixth");
    (7, "seventh"); (8, "eigth"); (9, "ninth"); (10, "tenth");
    (11, "eleventh"); (12, "twelveth"); (13, "thirteenth");
    (14, "fourteenth"); (15, "fifteenth"); (16, "sixteenth");
    (17, "seventeenth"); (18, "eighteenth"); (19, "nineteenth");
    (20, "twentyith") ].

Definition _LONG_SCALE_EN : dict magnitude string :=
  OrderedDict
  [ (Finite 100, "hundred"); (Finite 1000, "thousand");
    (Finite 1000000, "million"); (e 12, "billion"); (e 18, "trillion");
    (e 24, "quadrillion"); (e 30, "quintillion"); (e 36, "sextillion");
    (e 42, "septillion"); (e 48, "octillion"); (e 54, "nonillion");
    (e 60, "decillion"); (e 66, "undecillion"); (e 72, "duodecillion");
    (e 78, "tredecillion"); (e 84, "quattuordecillion");
    (e 90, "quinquadecillion"); (e 96, "sedecillion");
    (e 102, "septendecillion"); (e 108, "octodecillion");
    (e 114, "novendecillion"); (e 120, "vigintillion");
    (e 306, "unquinquagintillion"); (e 312, "duoquinquagintillion");
    (e 336, "sesquinquagintillion"); (e 366, "unsexagintillion") ].

Definition _SHORT_SCALE_EN : dict magnitude string :=
  OrderedDict
  [ (Finite 100, "hundred"); (Finite 1000, "thousand");
    (Finite 1000000, "million"); (e 9, "billion"); (e 12, "trillion");
    (e 15, "quadrillion"); (e 18, "quintillion"); (e 21, "sextillion");
    (e 24, "septillion"); (e 27, "octillion"); (e 30, "nonillion");
    (e 33, "decillion"); (e 36, "undecillion"); (e 39, "duodecillion");
    (e 42, "tredecillion"); (e 45, "quattuordecillion");
    (e 48, "quinquadecillion"); (e 51, "sedecillion");
    (e 54, "septendecillion"); (e 57, "octodecillion");
    (e 60, "novendecillion"); (e 63, "vigintillion");
    (e 66, "unvigintillion"); (e 69, "uuovigintillion");
    (e 72, "tresvigintillion"); (e 75, "quattuorvigintillion");
    (e 78, "quinquavigintillion"); (e 81, "qesvigintillion");
    (e 84, "septemvigintillion"); (e 87, "octovigintillion");
    (e 90, "novemvigintillion"); (e 93, "trigintillion");
    (e 96, "untrigintillion"); (e 99, "duotrigintillion");
    (e 102, "trestrigintillion"); (e 105, "quattuortrigintillion");
    (e 108, "quinquatrigintillion"); (e 111, "sestrigintillion");
    (e 114, "septentrigintillion"); (e 117, "octotrigintillion");
    (e 120, "noventrigintillion"); (e 123, "quadragintillion");
    (e 153, "quinquagintillion"); (e 183, "sexagintillion");
    (e 213, "septuagintillion"); (e 243, "octogintillion");
    (e 273, "nonagintillion"); (e 303, "centillion");
    (e 306, "uncentillion"); (e 309, "duocentillion");
    (e 312, "trescentillion"); (e 333, "decicentillion");
    (e 336, "undecicentillion"); (e 363, "viginticentillion");
    (e 366, "unviginticentillion"); (e 393, "trigintacentillion");
    (e 423, "quadragintacentillion"); (e 453, "quinquagintacentillion");
    (e 483, "sexagintacentillion"); (e 513, "septuagintacentillion");
    (e 543, "ctogintacentillion"); (e 573, "nonagintacentillion");
    (e 603, "ducentillion"); (e 903, "trecentillion");
    (e 1203, "quadringentillion"); (e 1503, "quingentillion");
    (e 1803, "sescentillion"); (e 2103, "septingentillion");
    (e 2403, "octingentillion"); (e 2703, "nongentillion");
    (e 3003, "millinillion") ].

Definition _ORDINAL_BASE_EN : dict Z string :=
  [ (1, "first"); (2, "second"); (3, "third"); (4, "fourth"); (5, "fifth");
    (6, "sixth"); (7, "seventh"); (8, "eighth"); (9, "ninth"); (10, "tenth");
    (11, "eleventh"); (12, "twelfth"); (13, "thirteenth");
    (14, "fourteenth"); (15, "fifteenth"); (16, "sixteenth");
    (17, "seventeenth"); (18, "eighteenth"); (19, "nineteenth");
    (20, "twentieth"); (30, "thirtieth"); (40, "fortieth"); (50, "fiftieth");
    (60, "sixtieth"); (70, "seventieth"); (80, "eightieth");
    (90, "ninetieth"); (10 ^ 2, "hundredth"); (10 ^ 3, "thousandth") ].

Definition _SHORT_ORDINAL_EN : dict Z string :=
  dict_update Z.eqb
  [ (10 ^ 6, "millionth"); (10 ^ 9, "billionth"); (10 ^ 12, "trillionth");
    (10 ^ 15, "quadrillionth"); (10 ^ 18, "quintillionth");
    (10 ^ 21, "sextillionth"); (10 ^ 24, "septillionth");
    (10 ^ 27, "octillionth"); (10 ^ 30, "nonillionth");
    (10 ^ 33, "decillionth") ]
  _ORDINAL_BASE_EN.

Definition _LONG_ORDINAL_EN : dict Z string :=
  dict_update Z.eqb
  [ (10 ^ 6, "millionth"); (10 ^ 12, "billionth"); (10 ^ 18, "trillionth");
    (10 ^ 24, "quadrillionth"); (10 ^ 30, "quintillionth");
    (10 ^ 36, "sextillionth"); (10 ^ 42, "septillionth");
    (10 ^ 48, "octillionth"); (10 ^ 54, "nonillionth");
    (10 ^ 60, "decillionth") ]
  _ORDINAL_BASE_EN.

(** negate next number (-2 = 0 - 2) *)
Definition _NEGATIVES_EN : list string := ["negative"; "minus"].

(** sum the next number (twenty two = 20 + 2) *)
Definition _SUMS_EN : list string :=
  [ "twenty"; "20"; "thirty"; "30"; "forty"; "40"; "fifty"; "50";
    "sixty"; "60"; "seventy"; "70"; "eighty"; "80"; "ninety"; "90" ].

(** [_generate_plurals_en]: every word with an ['s'] appended; on a
    dictionary the keys are pluralised and the values kept. *)
Definition _generate_plurals_en (originals : list string) : list string :=
  map (fun value => value ++ "s") originals.

Definition _generate_plurals_en_dict {V : Type} (originals : dict string V)
  : dict string V :=
  map (fun kv => (fst kv ++ "s", snd kv)) originals.

Definition _MULTIPLIES_LONG_SCALE_EN : list string :=
  (values _LONG_SCALE_EN ++ _generate_plurals_en (values _LONG_SCALE_EN))%list.

Definition _MULTIPLIES_SHORT_SCALE_EN : list string :=
  (values _SHORT_SCALE_EN
     ++ _generate_plurals_en (values _SHORT_SCALE_EN))%list.

(** split sentence parse separately and sum ( 2 and a half = 2 + 0.5 ) *)
Definition _FRACTION_MARKER_EN : list string := ["and"].

(** decimal marker ( 1 point 5 = 1 + 0.5) *)
Definition _DECIMAL_MARKER_EN : list string := ["point"; "dot"].

Definition _STRING_NUM_EN : dict string Z :=
  let inverted := invert_dict _NUM_STRING_EN in
  dict_update String.eqb inverted (_generate_plurals_en_dict inverted).

Definition _SPOKEN_EXTRA_NUM_EN : dict string Q :=
  [ ("half", 1 # 2); ("halves", 1 # 2); ("couple", 2 # 1) ]%Q.

Definition _STRING_SHORT_ORDINAL_EN : dict string Z :=
  invert_dict _SHORT_ORDINAL_EN.

Definition _STRING_LONG_ORDINAL_EN : dict string Z :=
  invert_dict _LONG_ORDINAL_EN.

(** ** Question rules

    [_QUESTION_RULES_EN] maps a kind of question to a list of patterns;
    three of its lists end with patterns made by
    [_generate_entity_rules]. *)

(** [s.endswith(suffix)] *)
Fixpoint endswith (s suffix : string) : bool :=
  String.eqb s suffix
  || match s with
     | EmptyString => false
     | String _ s' => endswith s' suffix
     end.

(** [_generate_entity_rules(entities, qwords=None)].

    [qwords or ["what", "which"]] takes the default for [None] and for an
    empty list alike.  [entities += [...]] extends the list object the
    caller passed: the plural of every entity that ends neither in ['s']
    nor in ['*'] is appended, and the loop then runs over the extended
    list.  The function returns the rules; the second component here is
    the content of the caller's list after the call. *)
Definition _generate_entity_rules
    (entities : list string) (qwords : option (list string))
  : list string * list string :=
  let qwords :=
    match qwords with
    | Some (qw :: rest) => qw :: rest
    | Some [] | None => ["what"; "which"]
    end in
  let plurals :=
    map (fun ent => ent ++ "s")
      (filter (fun ent => negb (endswith ent "s") && negb (endswith ent "*"))
         entities) in
  let entities := (entities ++ plurals)%list in
  let rules :=
    flat_map
      (fun ent =>
         ("name * " ++ ent ++ " {query}")
           :: flat_map
                (fun qw =>
                   [ qw ++ " " ++ ent ++ " {query}";
                     qw ++ " {query} " ++ ent;
                     qw ++ " {property} " ++ ent ++ " {query}";
                     "{query} " ++ qw ++ " " ++ ent ])
                qwords)
      entities in
  (rules, entities).

End Lexicon.

(* ================================================================== *)
(** * The extraction engine                                            *)
(* ================================================================== *)

(** The test suite imports [extract_number], [extract_duration] and
    [extract_datetime] from [lingua_nostra.parse]; that module and the
    English implementation behind it are not among the sources.  The
    definitions of [Parse] that stand for their code are written from the
    specification, and each says so.  What they cover:
    - numbers (4.2): digit literals, numeric-suffix ordinals, number words,
      scale words, ordinal and fraction words, decimal, negative and
      fraction markers;
    - durations (4.3): pairs of a number and a unit word;
    - dates and times (4.4): offset phrases ("in 3 weeks and 2 days", "in an
      hour"), the keywords "today", "tomorrow", "yesterday", and the bare
      hour of "at 10 o'clock".  The other rules of 4.4 (weekday and month
      names, clock literals, named periods) are outside the model; their
      words are listed in [other_datetime_words], and no statement is made
      about a text that contains one. *)

Module Parse.

Import Lexicon.

#[local] Open Scope string_scope.

(** ** Text and tokens *)

Definition is_upper (c : ascii) : bool :=
  let n := nat_of_ascii c in Nat.leb 65 n && Nat.leb n 90.

Definition lower_char (c : ascii) : ascii :=
  if is_upper c then ascii_of_nat (nat_of_ascii c + 32) else c.

(** [str.lower()], on the ASCII letters. *)
Fixpoint lower (s : string) : string :=
  match s with
  | EmptyString => EmptyString
  | String c s' => String (lower_char c) (lower s')
  end.

Definition is_space (c : ascii) : bool :=
  let n := nat_of_ascii c in
  Nat.eqb n 32 || Nat.eqb n 9 || Nat.eqb n 10 || Nat.eqb n 13.

(** The symbols that are tokens of their own: the comma and the percent
    sign. *)
Definition is_symbol (c : ascii) : bool :=
  let n := nat_of_ascii c in Nat.eqb n 44 || Nat.eqb n 37.

Definition flush (cur : string) (l : list string) : list string :=
  if String.eqb cur "" then l else cur :: l.

(** Modelled from the spec: the tokenizer of [lingua_nostra.parse] (4.1,
    and the [Token] of section 3: "a normalized word or symbol with its
    original casing preserved; ordered sequence").  Words are the maximal
    runs without white space; a comma or a percent sign is a symbol of its
    own, which is what leaves the residue ", , and" of 4.3 behind. *)
Fixpoint tokenize_from (cur : string) (s : string) : list string :=
  match s with
  | EmptyString => flush cur []
  | String c s' =>
      if is_space c then flush cur (tokenize_from "" s')
      else if is_symbol c
      then flush cur (String c "" :: tokenize_from "" s')
      else tokenize_from (cur ++ String c "") s'
  end.

Definition tokenize (text : string) : list string := tokenize_from "" text.

(** Modelled from the spec: the leftover text of [lingua_nostra.parse]
    (section 3), "the original text with every token span consumed [...]
    removed, then re-joined": the surviving tokens in their order, one
    blank between neighbours. *)
Definition join (toks : list string) : string := String.concat " " toks.

(** ** Digit literals *)

Definition digit_of (c : ascii) : option Z :=
  let n := nat_of_ascii c in
  if Nat.leb 48 n && Nat.leb n 57 then Some (Z.of_nat (n - 48)) else None.

(** The longest prefix of digits: its value, its length, and the rest. *)
Fixpoint read_digits (acc : Z) (len : nat) (s : string) : Z * nat * string :=
  match s with
  | EmptyString => (acc, len, s)
  | String c s' =>
      match digit_of c with
      | Some d => read_digits (10 * acc + d) (S len) s'
      | None => (acc, len, s)
      end
  end.

Fixpoint has_digit (s : string) : bool :=
  match s with
  | EmptyString => false
  | String c s' =>
      match digit_of c with
      | Some _ => true
      | None => has_digit s'
      end
  end.

Inductive literal : Type :=
| LitNumber (q : Q)      (* "2", "91.6", "3/4" *)
| LitOrdinal (n : Z).    (* "1st", "2nd", "3rd", "34th" *)

(** What may follow the digits of a literal: a second run of digits behind
    the separator [sep], and nothing after it. *)
Definition second_run (sep : nat) (rest : string) : option (Z * nat) :=
  match rest with
  | String c more =>
      if Nat.eqb (nat_of_ascii c) sep then
        match read_digits 0 0 more with
        | (_, O, _) => None
        | (f, len, rest') =>
            if String.eqb rest' "" then Some (f, len) else None
        end
      else None
  | EmptyString => None
  end.

(** Modelled from the spec: the literals [lingua_nostra.parse] reads (the
    "digit-literal" of 4.2 step 1, with the default decimal marker "." of
    step 5, and the numeric-suffix ordinals "1st", "2nd", "3rd", "4th" of
    step 3).  A fraction written with a slash ("3/4") is a literal too, as
    in the "1/4 cup" of the test suite. *)
Definition read_literal (w : string) : option literal :=
  match read_digits 0 0 w with
  | (_, O, _) => None
  | (n, _, rest) =>
      if String.eqb rest "" then Some (LitNumber (inject_Z n))
      else if mem rest ["st"; "nd"; "rd"; "th"] then Some (LitOrdinal n)
      else
        match second_run 46 rest, second_run 47 rest with
        | Some (f, len), _ =>
            Some (LitNumber
                    (inject_Z n + inject_Z f / inject_Z (10 ^ Z.of_nat len)))
        | None, Some (d, _) =>
            if Z.eqb d 0 then None
            else Some (LitNumber (inject_Z n / inject_Z d))
        | None, None => None
        end
  end.

(** ** Word classes *)

Inductive word_class : Type :=
| WDigits (q : Q)              (* digit literal *)
| WNumSuffix (n : Z)           (* numeric-suffix ordinal *)
| WCardinal (n : Z)            (* [_STRING_NUM_EN] *)
| WExtra (q : Q)               (* [_SPOKEN_EXTRA_NUM_EN] *)
| WScale (m : magnitude)       (* a multiplier of the chosen scale *)
| WOrdinal (rank : Z)          (* ordinal table of the chosen scale *)
| WFraction (denominator : Z)  (* fraction word that is no ordinal *)
| WFractionPlural (denominator : Z)
| WNumeral                     (* has a digit, but is no literal above *)
| WNegative
| WFractionMarker
| WDecimalMarker
| WArticle
| WOther.

(** The scale table of the flag, by name, plurals included. *)
Definition string_num_scale (short_scale : bool) : dict string magnitude :=
  let inverted :=
    invert_dict (if short_scale then _SHORT_SCALE_EN else _LONG_SCALE_EN) in
  dict_update String.eqb inverted (_generate_plurals_en_dict inverted).

Definition string_num_ordinal (short_scale : bool) : dict string Z :=
  if short_scale then _STRING_SHORT_ORDINAL_EN else _STRING_LONG_ORDINAL_EN.

(** Modelled from the spec: the fraction words of [lingua_nostra.parse]
    (4.2 step 3).  An ordinal word doubles as the name of a fraction
    ("third" is 1/3, "billionth" 1e-9); "first" and "second" do not: the
    test suite files "first" under "non ambiguous ordinals" and "second"
    under "ambiguous ordinal/time unit", and neither yields a fraction
    there.  "quarter" is the fraction word of the tests that is no ordinal
    ("quarter cup" is 0.25). *)
Definition fraction_denominator (short_scale : bool) (w : string) : option Z :=
  if String.eqb w "quarter" then Some 4
  else
    match dict_get (string_num_ordinal short_scale) w with
    | Some rank => if Z.ltb 2 rank then Some rank else None
    | None => None
    end.

(** [w] without the suffix [suf], if it ends in it. *)
Definition strip_suffix (suf w : string) : option string :=
  let n := (String.length w - String.length suf)%nat in
  if Nat.leb (String.length suf) (String.length w)
     && String.eqb (substring n (String.length suf) w) suf
  then Some (substring 0 n w)
  else None.

(** Modelled from the spec: the word classes of [lingua_nostra.parse]
    (4.2 step 1, "a digit-literal, a number-word, an ordinal-word, or a
    fraction-word", and the marker sets of step 2), read off the lexical
    tables.  The argument is a lower-cased token.  A token with a digit in
    it that is none of the literals is a numeral the model does not
    read. *)
Definition classify (short_scale : bool) (w : string) : word_class :=
  if mem w _ARTICLES_EN then WArticle
  else if mem w _NEGATIVES_EN then WNegative
  else if mem w _FRACTION_MARKER_EN then WFractionMarker
  else if mem w _DECIMAL_MARKER_EN then WDecimalMarker
  else
    match dict_get _STRING_NUM_EN w with
    | Some n => WCardinal n
    | None =>
    match dict_get _SPOKEN_EXTRA_NUM_EN w with
    | Some q => WExtra q
    | None =>
    match dict_get (string_num_scale short_scale) w with
    | Some m => WScale m
    | None =>
    match dict_get (string_num_ordinal short_scale) w with
    | Some rank => WOrdinal rank
    | None =>
    match read_literal w with
    | Some (LitNumber q) => WDigits q
    | Some (LitOrdinal n) => WNumSuffix n
    | None =>
    if has_digit w then WNumeral
    else
    match fraction_denominator short_scale w with
    | Some d => WFraction d
    | None =>
    match strip_suffix "s" w with
    | Some stem =>
        match fraction_denominator short_scale stem with
        | Some d => WFractionPlural d
        | None => WOther
        end
    | None => WOther
    end end end end end end end.

(** ** Numbers *)

(** Modelled from the spec: the result of [extract_number] in
    [lingua_nostra.parse] (4.2, contract: "float|int|False"): the sentinel
    [False] or a number. *)
Inductive number_result : Type :=
| PyFalse
| Num (q : Q).

(** Modelled from the spec: the [ScaleState] of [lingua_nostra.parse]
    (section 3), "a running total, a current group sub-total [...], and
    the last applied scale magnitude". *)
Record ScaleState : Type := mkScale {
  total : Q;
  group : Q;
  last_scale : option Q
}.

Definition initial_scale : ScaleState := mkScale 0 0 None.

Definition scale_value (st : ScaleState) : Q := (total st + group st)%Q.

(** A scale word with nothing in front of it counts once ("thousand
    million", "billions of years"). *)
Definition unit_or (q : Q) : Q := if Qeq_bool q 0 then 1%Q else q.

(** The part of [q] below the magnitude [s]: [q] modulo [s]. *)
Definition below (s q : Q) : Q := (q - s * inject_Z (Qfloor (q / s)))%Q.

(** Modelled from the spec: the number-word step of the accumulator
    (4.2 step 2): the value is "added to the running group total". *)
Definition apply_number (st : ScaleState) (q : Q) : ScaleState :=
  mkScale (total st) (group st + q)%Q (last_scale st).

(** Modelled from the spec: the scale-word step of the accumulator
    (4.2 step 2): "multiply the current group total by the scale
    magnitude; if the resulting magnitude is smaller than or equal to a
    previously applied magnitude in the same phrase, the scale closes the
    current group into the total and starts a new accumulation".  The
    magnitude is compared with the last one applied.  A magnitude larger
    than that one (or the first of the phrase) is one of the "non-monotonic
    scale words" the state is there to combine: it scales the group
    together with what the total holds below that magnitude ("nine hundred
    fifty thousand", "thousand million"), and closes the product into the
    total. *)
Definition apply_scale (st : ScaleState) (s : Q) : ScaleState :=
  let close :=
    mkScale (total st + unit_or (group st) * s)%Q 0 (Some s) in
  let combine :=
    let low := below s (total st) in
    mkScale (total st - low + unit_or (low + group st) * s)%Q 0 (Some s) in
  match last_scale st with
  | Some l => if Qle_bool s l then close else combine
  | None => combine
  end.

(** What the previous word of the phrase was. *)
Inductive prev_kind : Type :=
| PrevSum      (* a word of [_SUMS_EN]: twenty, thirty, ... *)
| PrevUnit     (* another number word or literal *)
| PrevScale.   (* a scale word *)

Definition kind_of_number (w : string) : prev_kind :=
  if mem w _SUMS_EN then PrevSum else PrevUnit.

(** Modelled from the spec: which number word continues a phrase of
    [lingua_nostra.parse] (4.2 step 2): after a sum word a value below ten
    joins the group ("twenty two"); after a scale word any number does
    ("six hundred sixty six"); two plain numbers side by side are two
    numbers (4.2 step 4 and section 8: "twenty 20 twenty 2" is
    [20, 20, 22]). *)
Definition continues (prev : prev_kind) (q : Q) : bool :=
  match prev with
  | PrevSum => negb (Qle_bool 10 q)
  | PrevScale => true
  | PrevUnit => false
  end.

(** Modelled from the spec: the fold of a whole-number phrase in
    [lingua_nostra.parse] (4.2 step 2) over the tokens that follow its
    first word.  Returns the state and the tokens left.  With
    [ordinals=True] an ordinal word that can be summed ends the phrase
    ("thirty second" is 32).  A scale word whose table key is [inf] ends
    the phrase: the rationals of the model have no such value. *)
Fixpoint fold_whole (ord short_scale : bool) (st : ScaleState)
    (prev : prev_kind) (toks : list string) : ScaleState * list string :=
  match toks with
  | [] => (st, [])
  | t :: rest =>
      let w := lower t in
      match classify short_scale w with
      | WCardinal n =>
          if continues prev (inject_Z n)
          then fold_whole ord short_scale (apply_number st (inject_Z n))
                 (kind_of_number w) rest
          else (st, toks)
      | WDigits q =>
          if continues prev q
          then fold_whole ord short_scale (apply_number st q)
                 (kind_of_number w) rest
          else (st, toks)
      | WScale (Finite m) =>
          fold_whole ord short_scale (apply_scale st (inject_Z m))
            PrevScale rest
      | WOrdinal r =>
          if ord && continues prev (inject_Z r)
          then (apply_number st (inject_Z r), rest)
          else (st, toks)
      | _ => (st, toks)
      end
  end.

(** Modelled from the spec: ordinal words in a row in
    [lingua_nostra.parse] (4.2 step 3): with [ordinals=True] "only the
    later one wins". *)
Fixpoint ordinal_tail (short_scale : bool) (v : Q) (toks : list string)
  : Q * list string :=
  match toks with
  | [] => (v, [])
  | t :: rest =>
      match classify short_scale (lower t) with
      | WOrdinal r => ordinal_tail short_scale (inject_Z r) rest
      | _ => (v, toks)
      end
  end.

(** Modelled from the spec: the factor a fraction-forming word of
    [lingua_nostra.parse] contributes (4.2 step 3): the reciprocal of its
    denominator; "half" contributes the 0.5 of [_SPOKEN_EXTRA_NUM_EN]. *)
Definition fraction_factor (short_scale : bool) (w : string) : option Q :=
  match classify short_scale w with
  | WOrdinal r => if Z.ltb 2 r then Some (/ inject_Z r)%Q else None
  | WFraction d => Some (/ inject_Z d)%Q
  | WFractionPlural d => Some (/ inject_Z d)%Q
  | WExtra q => if negb (Qle_bool 1 q) then Some q else None
  | _ => None
  end.

(** Modelled from the spec: fraction words after a number in
    [lingua_nostra.parse] (4.2 step 3): with [ordinals=False] a cardinal
    and the fraction words after it compose ("2 fifths" is 2/5), and
    fraction words in a row chain ("sixth third" is 1/6/3). *)
Fixpoint fraction_tail (short_scale : bool) (v : Q) (toks : list string)
  : Q * list string :=
  match toks with
  | [] => (v, [])
  | t :: rest =>
      match fraction_factor short_scale (lower t) with
      | Some f => fraction_tail short_scale (v * f)%Q rest
      | None => (v, toks)
      end
  end.

(** Modelled from the spec: the decimal marker of [lingua_nostra.parse]
    (4.2 step 2): the marker word turns the number word after it into the
    digits behind the point ("three dot fourteen" is 3.14). *)
Definition decimal_part (short_scale : bool) (v : Q) (toks : list string)
  : Q * list string :=
  match toks with
  | m :: d :: rest =>
      match classify short_scale (lower m) with
      | WDecimalMarker =>
          match classify short_scale (lower d) with
          | WCardinal n =>
              (v + inject_Z n / inject_Z (if Z.ltb n 10 then 10 else 100),
               rest)%Q
          | WDigits _ =>
              match read_digits 0 0 d with
              | (f, len, EmptyString) =>
                  (v + inject_Z f / inject_Z (10 ^ Z.of_nat len), rest)%Q
              | _ => (v, toks)
              end
          | _ => (v, toks)
          end
      | _ => (v, toks)
      end
  | _ => (v, toks)
  end.

(** Modelled from the spec: what follows a whole-number phrase in
    [lingua_nostra.parse] (4.2 steps 2 and 3): the decimal part, then the
    ordinal or fraction words the [ordinals] flag admits.  With
    [ordinals=None] "the leading cardinal alone wins". *)
Definition after_whole (ordinals : option bool) (short_scale : bool)
    (r : ScaleState * list string) : Q * list string :=
  let (v, rest) := decimal_part short_scale (scale_value (fst r)) (snd r) in
  match ordinals with
  | Some true =>
      match rest with
      | t :: rest' =>
          match classify short_scale (lower t) with
          | WOrdinal rank => ordinal_tail short_scale (inject_Z rank) rest'
          | _ => (v, rest)
          end
      | [] => (v, rest)
      end
  | Some false => fraction_tail short_scale v rest
  | None => (v, rest)
  end.

(** Modelled from the spec: the candidate span of [lingua_nostra.parse]
    (4.2 steps 1 to 3) opened by the first token of [toks], without a
    fraction marker.  A lone ordinal word is its rank with
    [ordinals=True], its fraction with [ordinals=False] if it names one,
    and no match with [ordinals=None]. *)
Definition number_simple (ordinals : option bool) (short_scale : bool)
    (toks : list string) : option (Q * list string) :=
  match toks with
  | [] => None
  | t :: rest =>
      let w := lower t in
      let ord := match ordinals with Some true => true | _ => false end in
      let whole st prev :=
        Some (after_whole ordinals short_scale
                (fold_whole ord short_scale st prev rest)) in
      match classify short_scale w with
      | WNumSuffix n => Some (inject_Z n, rest)
      | WDigits q => whole (apply_number initial_scale q) (kind_of_number w)
      | WCardinal n =>
          whole (apply_number initial_scale (inject_Z n)) (kind_of_number w)
      | WExtra q => whole (apply_number initial_scale q) PrevUnit
      | WScale (Finite m) =>
          whole (apply_scale initial_scale (inject_Z m)) PrevScale
      | WOrdinal r =>
          match ordinals with
          | Some true => Some (ordinal_tail short_scale (inject_Z r) rest)
          | Some false =>
              if Z.ltb 2 r
              then Some (fraction_tail short_scale (/ inject_Z r)%Q rest)
              else None
          | None => None
          end
      | WFraction d =>
          match ordinals with
          | Some false =>
              Some (fraction_tail short_scale (/ inject_Z d)%Q rest)
          | _ => None
          end
      | _ => None
      end
  end.

(** The tokens from the first one that is no article. *)
Fixpoint skip_articles (short_scale : bool) (toks : list string)
  : list string :=
  match toks with
  | [] => []
  | t :: rest =>
      match classify short_scale (lower t) with
      | WArticle => skip_articles short_scale rest
      | _ => toks
      end
  end.

(** Modelled from the spec: the fraction marker of [lingua_nostra.parse]
    (4.2 step 2 and the glossary): "and" joins a phrase "to a following
    fractional phrase", a number above 0 and below 1, the two being added
    ("two and a half" is 2 + 0.5). *)
Definition number_core (ordinals : option bool) (short_scale : bool)
    (toks : list string) : option (Q * list string) :=
  match number_simple ordinals short_scale toks with
  | None => None
  | Some (v, rest) =>
      match rest with
      | t :: rest' =>
          match classify short_scale (lower t) with
          | WFractionMarker =>
              match number_simple ordinals short_scale
                      (skip_articles short_scale rest') with
              | Some (f, rest'') =>
                  if negb (Qle_bool f 0) && negb (Qle_bool 1 f)
                  then Some ((v + f)%Q, rest'')
                  else Some (v, rest)
              | None => Some (v, rest)
              end
          | _ => Some (v, rest)
          end
      | [] => Some (v, rest)
      end
  end.

(** Modelled from the spec: the [NumberMatch] of [lingua_nostra.parse]
    that starts at the head of [toks] (4.2 step 2, "a negative marker
    preceding the whole phrase negates the final resolved value", and step
    3, "a couple" is 2); articles and a negative marker in front of the
    number belong to its span.  The result is the value and the tokens
    after the span. *)
Definition number_at (ordinals : option bool) (short_scale : bool)
    (toks : list string) : option (Q * list string) :=
  match skip_articles short_scale toks with
  | [] => None
  | t :: rest =>
      match classify short_scale (lower t) with
      | WNegative =>
          match number_core ordinals short_scale rest with
          | Some (v, rest') => Some ((- v)%Q, rest')
          | None => None
          end
      | _ => number_core ordinals short_scale (t :: rest)
      end
  end.

(** Modelled from the spec: the scan of [extract_number] in
    [lingua_nostra.parse] (4.2 step 4): "the first fully-resolved
    candidate in left-to-right order", or [False]. *)
Fixpoint first_number (ordinals : option bool) (short_scale : bool)
    (toks : list string) : number_result :=
  match toks with
  | [] => PyFalse
  | _ :: rest =>
      match number_at ordinals short_scale toks with
      | Some (v, _) => Num (Qred v)
      | None => first_number ordinals short_scale rest
      end
  end.

(** Modelled from the spec: [extract_number] of [lingua_nostra.parse]
    (4.2, contract): [extract_number(text, ordinals, short_scale)]. *)
Definition extract_number (text : string) (ordinals : option bool)
    (short_scale : bool) : number_result :=
  first_number ordinals short_scale (tokenize text).

(** ** Durations *)

(** A duration ([datetime.timedelta] of the Python library) as its
    length in seconds.  Two [timedelta] values are equal when their lengths
    are, which is all the contract compares.  The length is an exact
    rational; the rounding of the library to microseconds is not
    modelled. *)
Definition timedelta : Type := Q.

(** [timedelta(weeks=, days=, hours=, minutes=, seconds=)] *)
Definition mk_timedelta (weeks days hours minutes seconds : Q) : timedelta :=
  Qred (weeks * 604800 + days * 86400 + hours * 3600 + minutes * 60
        + seconds)%Q.

(** Modelled from the spec: the unit words of [extract_duration] in
    [lingua_nostra.parse] (4.3), with the "separate magnitudes for
    weeks/days/hours/minutes/seconds" of the duration value, singular or
    plural; the result is the unit in seconds. *)
Definition duration_unit (w : string) : option Q :=
  if mem w ["second"; "seconds"] then Some 1%Q
  else if mem w ["minute"; "minutes"] then Some 60%Q
  else if mem w ["hour"; "hours"] then Some 3600%Q
  else if mem w ["day"; "days"] then Some 86400%Q
  else if mem w ["week"; "weeks"] then Some 604800%Q
  else None.

(** Modelled from the spec: the scan of [extract_duration] in
    [lingua_nostra.parse] (4.3) for "(number, unit-word) pairs", the number
    being a match of the Number Extractor.  A pair adds
    its length to the sum and its tokens are dropped; every other token is
    kept for the leftover.  [skip] counts the tokens of a pair still to be
    dropped. *)
Fixpoint duration_scan (toks : list string) (skip : nat)
  : Q * list string :=
  match toks with
  | [] => (0%Q, [])
  | t :: rest =>
      match skip with
      | S k => duration_scan rest k
      | O =>
          let keep :=
            let (d, left) := duration_scan rest 0 in (d, t :: left) in
          match number_at None true toks with
          | Some (v, u :: after) =>
              match duration_unit (lower u) with
              | Some unit =>
                  let (d, left) :=
                    duration_scan rest (List.length rest - List.length after)
                  in ((v * unit + d)%Q, left)
              | None => keep
              end
          | _ => keep
          end
      end
  end.

(** Modelled from the spec: [extract_duration] of [lingua_nostra.parse]
    (4.3, contract):
    [extract_duration(text) -> (duration_amount, leftover_text)]. *)
Definition extract_duration (text : string) : timedelta * string :=
  let (d, left) := duration_scan (tokenize text) 0 in
  (Qred d, join left).

(** ** Dates and times *)

(** A calendar reading: the fields of a [datetime] of the Python library
    down to the second.  The zone of the anchor is carried through
    unchanged and is left out. *)
Record pydatetime : Type := mkdatetime {
  year : Z; month : Z; day : Z;
  hour : Z; minute : Z; second : Z
}.

#[local] Open Scope Z_scope.

(** The calendar arithmetic of the Python library ([datetime] plus
    [timedelta], and the month and year steps of [relativedelta]). *)
Definition days_in_month (y m : Z) : Z :=
  if Z.eqb m 2 then (if Time.is_leap_year y then 29 else 28)
  else if existsb (Z.eqb m) [4; 6; 9; 11] then 30 else 31.

(** The day after, and the day before, a date. *)
Definition next_day (d : Z * Z * Z) : Z * Z * Z :=
  let '(y, m, dd) := d in
  if Z.ltb dd (days_in_month y m) then (y, m, dd + 1)
  else if Z.ltb m 12 then (y, m + 1, 1)
  else (y + 1, 1, 1).

Definition prev_day (d : Z * Z * Z) : Z * Z * Z :=
  let '(y, m, dd) := d in
  if Z.ltb 1 dd then (y, m, dd - 1)
  else if Z.ltb 1 m then (y, m - 1, days_in_month y (m - 1))
  else (y - 1, 12, 31).

(** A date moved by [n] days, forwards or backwards. *)
Definition add_days (n : Z) (d : Z * Z * Z) : Z * Z * Z :=
  if Z.leb 0 n then Nat.iter (Z.to_nat n) next_day d
  else Nat.iter (Z.to_nat (- n)) prev_day d.

(** A date moved by [n] months; the day of the month is kept, or cut to
    the length of the month reached. *)
Definition add_months (n : Z) (d : Z * Z * Z) : Z * Z * Z :=
  let '(y, m, dd) := d in
  let k := y * 12 + (m - 1) + n in
  let y' := k / 12 in
  let m' := k mod 12 + 1 in
  (y', m', Z.min dd (days_in_month y' m')).

Definition add_years (n : Z) (d : Z * Z * Z) : Z * Z * Z :=
  add_months (12 * n) d.

(** A reading moved by [s] seconds. *)
Definition add_seconds (s : Z) (dt : pydatetime) : pydatetime :=
  let secs := hour dt * 3600 + minute dt * 60 + second dt + s in
  let '(y, m, d) := add_days (secs / 86400) (year dt, month dt, day dt) in
  let r := secs mod 86400 in
  mkdatetime y m d (r / 3600) (r mod 3600 / 60) (r mod 60).

(** Modelled from the spec: the [DateTimeContext] of
    [lingua_nostra.parse] (section 3), reduced to what the modelled rules
    of the two passes of 4.4 fill in: the offsets of the date pass, the
    offset and the bare hour of the time pass, and the two flags
    [day_specified] and [time_specified]. *)
Record DateTimeContext : Type := mkContext {
  year_offset : Z;
  month_offset : Z;
  day_offset : Z;
  second_offset : Z;
  bare_hour : option Z;
  day_specified : bool;
  time_specified : bool
}.

Definition empty_context : DateTimeContext :=
  mkContext 0 0 0 0 None false false.

(** Modelled from the spec: the units of an offset phrase of
    [lingua_nostra.parse] (4.4), by the pass they belong to. *)
Inductive offset_unit : Type :=
| UnitSeconds (s : Z)   (* time pass: seconds, minutes, hours *)
| UnitDays (d : Z)      (* date pass: days, weeks *)
| UnitMonths (m : Z)    (* date pass: months *)
| UnitYears (y : Z).    (* date pass: years, decades, centuries, ... *)

(** Modelled from the spec: the unit words of [extract_datetime] in
    [lingua_nostra.parse] (4.4): those of the duration-offset phrases of
    the date pass (d), of its coarse jumps (e), and of the time pass
    (d). *)
Definition offset_unit_of (w : string) : option offset_unit :=
  if mem w ["second"; "seconds"] then Some (UnitSeconds 1)
  else if mem w ["minute"; "minutes"] then Some (UnitSeconds 60)
  else if mem w ["hour"; "hours"] then Some (UnitSeconds 3600)
  else if mem w ["day"; "days"] then Some (UnitDays 1)
  else if mem w ["week"; "weeks"] then Some (UnitDays 7)
  else if mem w ["month"; "months"] then Some (UnitMonths 1)
  else if mem w ["year"; "years"] then Some (UnitYears 1)
  else if mem w ["decade"; "decades"] then Some (UnitYears 10)
  else if mem w ["century"; "centuries"] then Some (UnitYears 100)
  else if mem w ["millennium"; "millenniums"] then Some (UnitYears 1000)
  else None.

(** Modelled from the spec: the relative-day keywords of
    [extract_datetime] in [lingua_nostra.parse] (4.4, date pass (b)), as
    the number of days from the anchor. *)
Definition relative_day (w : string) : option Z :=
  if String.eqb w "today" then Some 0
  else if String.eqb w "tomorrow" then Some 1
  else if String.eqb w "yesterday" then Some (-1)
  else None.

Definition is_oclock (w : string) : bool := String.eqb w "o'clock".

(** Modelled from the spec: the words of [extract_datetime] in
    [lingua_nostra.parse] whose rules (4.4) are outside the model: the
    weekday names of date pass (c), the month names of date pass (a), the
    named periods of time pass (c), the meridiem of time pass (a), and
    "now" and "tonight" of the test suite. *)
Definition other_datetime_words : list string :=
  [ "monday"; "tuesday"; "wednesday"; "thursday"; "friday"; "saturday";
    "sunday"; "weekend";
    "january"; "february"; "march"; "april"; "may"; "june"; "july";
    "august"; "september"; "october"; "november"; "december";
    "noon"; "midnight"; "morning"; "afternoon"; "evening"; "night";
    "tonight"; "now"; "am"; "pm" ].

(** [w] without a possessive ending ("tomorrow's"). *)
Definition base (w : string) : string :=
  match strip_suffix "'s" w with
  | Some stem => stem
  | None => w
  end.

Definition is_temporal (w : string) : bool :=
  match offset_unit_of w with
  | Some _ => true
  | None =>
      match relative_day w with
      | Some _ => true
      | None => is_oclock w || mem w other_datetime_words
      end
  end.

(** Modelled from the spec: the date and time tokens of
    [extract_datetime] in [lingua_nostra.parse] (4.4): the words a date or
    a time hangs on, with or without a possessive ending.  Without one of
    them no rule of the resolver applies. *)
Definition is_datetime_word (w : string) : bool :=
  is_temporal w || is_temporal (base w).

(** Modelled from the spec: the effect of an offset phrase in
    [lingua_nostra.parse] (4.4, date pass (d) and time pass (d)): it is
    "applied additively to the anchor", whole units only. *)
Definition add_offset (c : DateTimeContext) (v : Q) (u : offset_unit)
  : DateTimeContext :=
  match u with
  | UnitSeconds s =>
      mkContext (year_offset c) (month_offset c) (day_offset c)
        (second_offset c + Qfloor (v * inject_Z s)) (bare_hour c)
        (day_specified c) true
  | UnitDays d =>
      mkContext (year_offset c) (month_offset c)
        (day_offset c + Qfloor (v * inject_Z d)) (second_offset c)
        (bare_hour c) true (time_specified c)
  | UnitMonths m =>
      mkContext (year_offset c) (month_offset c + Qfloor (v * inject_Z m))
        (day_offset c) (second_offset c) (bare_hour c)
        true (time_specified c)
  | UnitYears y =>
      mkContext (year_offset c + Qfloor (v * inject_Z y)) (month_offset c)
        (day_offset c) (second_offset c) (bare_hour c)
        true (time_specified c)
  end.

(** Modelled from the spec: the effect of a relative-day keyword in
    [lingua_nostra.parse] (4.4, date pass (b)). *)
Definition set_day (c : DateTimeContext) (d : Z) : DateTimeContext :=
  mkContext (year_offset c) (month_offset c) (day_offset c + d)
    (second_offset c) (bare_hour c) true (time_specified c).

(** Modelled from the spec: the effect of a bare hour in
    [lingua_nostra.parse] (section 3, "a field, once set, is not
    overwritten"): the first bare hour stays. *)
Definition set_hour (c : DateTimeContext) (h : Z) : DateTimeContext :=
  mkContext (year_offset c) (month_offset c) (day_offset c)
    (second_offset c)
    (match bare_hour c with Some h0 => Some h0 | None => Some h end)
    (day_specified c) true.

(** Modelled from the spec: a quantity and its unit in
    [lingua_nostra.parse] (4.4), at the head of [toks]: a match of the
    Number Extractor followed by a unit word ("3 weeks", "a couple
    minutes"), or the article of "in an hour", "in a decade" standing for
    one.  Returns the quantity, the unit and the
    tokens after the unit. *)
Definition quantity_at (toks : list string)
  : option (Q * offset_unit * list string) :=
  match number_at None true toks with
  | Some (v, u :: after) =>
      match offset_unit_of (lower u) with
      | Some unit => Some (v, unit, after)
      | None => None
      end
  | Some (_, []) => None
  | None =>
      match toks with
      | a :: u :: after =>
          if mem (lower a) ["a"; "an"] then
            match offset_unit_of (lower u) with
            | Some unit => Some (1%Q, unit, after)
            | None => None
            end
          else None
      | _ => None
      end
  end.

(** Modelled from the spec: a bare hour in [lingua_nostra.parse] (4.4,
    time pass (b)), "10 o'clock", at the head of [toks]. *)
Definition oclock_at (toks : list string) : option (Z * list string) :=
  match number_at None true toks with
  | Some (v, u :: after) =>
      if is_oclock (lower u) then Some (Qfloor v, after) else None
  | _ => None
  end.

(** Modelled from the spec: the scan of [extract_datetime] in
    [lingua_nostra.parse] (4.4) over the token stream.  The modelled rules,
    at the current token:
    - "in" and an offset phrase, and after an offset phrase "and" and a
      further one ("in 8 weeks and 2 days");
    - a relative-day keyword;
    - a bare hour, with or without "at" in front.
    "Every token span consumed by either pass is removed from the
    leftover text"; every other token is kept.  [skip] counts the tokens
    of a span still to be dropped, [chained] says that the span just
    dropped was an offset phrase. *)
Fixpoint datetime_scan (toks : list string) (skip : nat) (chained : bool)
    (c : DateTimeContext) : DateTimeContext * list string :=
  match toks with
  | [] => (c, [])
  | t :: rest =>
      match skip with
      | S k => datetime_scan rest k chained c
      | O =>
          let w := lower t in
          let keep :=
            let (c', left) := datetime_scan rest O false c in
            (c', t :: left) in
          let span after := (List.length rest - List.length after)%nat in
          if String.eqb w "in" || (chained && String.eqb w "and") then
            match quantity_at rest with
            | Some (v, unit, after) =>
                datetime_scan rest (span after) true (add_offset c v unit)
            | None => keep
            end
          else if String.eqb w "at" then
            match oclock_at rest with
            | Some (h, after) =>
                datetime_scan rest (span after) false (set_hour c h)
            | None => keep
            end
          else
            match relative_day (base w) with
            | Some d => datetime_scan rest O false (set_day c d)
            | None =>
                match oclock_at toks with
                | Some (h, after) =>
                    datetime_scan rest (span after) false (set_hour c h)
                | None => keep
                end
            end
      end
  end.

(** Modelled from the spec: the meridiem of a bare hour in
    [lingua_nostra.parse] (4.4), taken from the anchor: "if
    the anchor is in the morning, a bare hour like 10 resolves to the
    nearest morning occurrence; if the anchor is in the afternoon/evening,
    the same bare hour resolves to the corresponding PM occurrence". *)
Definition resolve_meridiem (anchor : pydatetime) (h : Z) : Z :=
  if Z.ltb (hour anchor) 12 then h
  else if Z.ltb h 12 then h + 12 else h.

(** Modelled from the spec: the result of [extract_datetime] in
    [lingua_nostra.parse] (4.4).  Nothing matched: [None].  The date is the anchor's, moved by the offsets of the date
    pass.  The time of day is the bare hour if there is one; the anchor's
    time if the time pass found only offsets; and if the time pass
    resolved nothing, [default_time], or midnight without one.  The
    offset of the time pass is added last. *)
Definition resolve (anchor : pydatetime) (default_time : option (Z * Z))
    (c : DateTimeContext) : option pydatetime :=
  if negb (day_specified c || time_specified c) then None
  else
    let '(y, m, d) :=
      add_days (day_offset c)
        (add_months (month_offset c)
           (add_years (year_offset c)
              (year anchor, month anchor, day anchor))) in
    let base :=
      match bare_hour c with
      | Some h => mkdatetime y m d (resolve_meridiem anchor h) 0 0
      | None =>
          if time_specified c
          then mkdatetime y m d (hour anchor) (minute anchor) (second anchor)
          else
            match default_time with
            | Some (hh, mm) => mkdatetime y m d hh mm 0
            | None => mkdatetime y m d 0 0 0
            end
      end in
    Some (add_seconds (second_offset c) base).

(** Modelled from the spec: [extract_datetime] of [lingua_nostra.parse]
    (4.4, contract):
    [extract_datetime(text, anchor_datetime, default_time) ->
     (resolved_datetime, leftover_text) | None]. *)
Definition extract_datetime (text : string) (anchor : pydatetime)
    (default_time : option (Z * Z)) : option (pydatetime * string) :=
  let (c, left) := datetime_scan (tokenize text) O false empty_context in
  match resolve anchor default_time c with
  | Some dt => Some (dt, join left)
  | None => None
  end.

(** ** Predicates used to state the contract *)

(** A word that can be, or be part of, a number. *)
Definition is_number_word (c : word_class) : bool :=
  match c with
  | WDigits _ | WNumSuffix _ | WCardinal _ | WExtra _ | WScale _
  | WOrdinal _ | WFraction _ | WFractionPlural _ | WNumeral => true
  | WNegative | WFractionMarker | WDecimalMarker | WArticle | WOther => false
  end.

(** A word that is neither a number word nor a negative marker: it
    cannot change the value of a number next to it. *)
Definition is_inert (c : word_class) : bool :=
  match c with
  | WFractionMarker | WDecimalMarker | WArticle | WOther => true
  | _ => false
  end.

(** A text without number words, token by token. *)
Definition no_number_word (short_scale : bool) (toks : list string) : Prop :=
  Forall (fun t => is_number_word (classify short_scale (lower t)) = false)
    toks.

(** A text of inert words. *)
Definition all_inert (short_scale : bool) (toks : list string) : Prop :=
  Forall (fun t => is_inert (classify short_scale (lower t)) = true) toks.

(** A text without a date or time token. *)
Definition no_datetime_word (toks : list string) : Prop :=
  Forall (fun t => is_datetime_word (lower t) = false) toks.


End Parse.

(* ================================================================== *)
(** * Properties of time.py                                            *)
(* ================================================================== *)

Module TimeFacts.

Import Time.

(** ** The leap-year search *)

Lemma is_leap_year_true (y : Z) :
  is_leap_year y = true
  <-> (y mod 400 = 0 \/ (y mod 4 = 0 /\ y mod 100 <> 0)).
Proof.
  unfold is_leap_year.
  rewrite orb_true_iff, andb_true_iff, negb_true_iff, !Z.eqb_eq, Z.eqb_neq.
  reflexivity.
Qed.

Lemma is_leap_year_false (y : Z) :
  is_leap_year y = false -> y mod 4 <> 0 \/ y mod 100 = 0.
Proof.
  unfold is_leap_year.
  rewrite orb_false_iff, andb_false_iff, negb_false_iff, !Z.eqb_neq, Z.eqb_eq.
  intros [_ [H4 | H100]]; [left | right]; assumption.
Qed.

(** A multiple of four that is no leap year is a century year; four years
    later comes a leap year. *)
Lemma leap_four_years_later (m : Z) :
  m mod 4 = 0 -> is_leap_year m = false -> is_leap_year (m + 4) = true.
Proof.
  intros H4 Hm. apply is_leap_year_false in Hm.
  apply is_leap_year_true. right.
  Z.div_mod_to_equations; lia.
Qed.

Lemma multiple_of_four_ahead (y : Z) :
  (y + 1) mod 4 = 0 \/ (y + 2) mod 4 = 0 \/ (y + 3) mod 4 = 0
  \/ (y + 4) mod 4 = 0.
Proof. Z.div_mod_to_equations; lia. Qed.

(** From 1896 the search runs over the century year 1900: whatever the
    fuel, it either has not returned or has made seven recursive calls. *)
Lemma search_from_1896 (fuel : nat) :
  get_next_leap_year_fuel fuel 1896 = None
  \/ get_next_leap_year_fuel fuel 1896 = Some (1904, 7%nat).
Proof.
  do 8 (destruct fuel as [| fuel]; [left; reflexivity |]).
  right. reflexivity.
Qed.

(** C9, as stated, fails: it is not the case that for every year the
    search returns after at most 4 steps.  From 1896 the successors 1897,
    1898, 1899, 1900 (a century year, no leap year), 1901, 1902, 1903 are
    all passed over before 1904 is found. *)
Lemma get_next_leap_year_exceeds_4_steps :
  ~ (forall year, exists fuel found calls,
        get_next_leap_year_fuel fuel year = Some (found, calls)
        /\ (calls <= 4)%nat).
Proof.
  intros H. destruct (H 1896) as (fuel & found & calls & E & Hc).
  destruct (search_from_1896 fuel) as [F | F]; rewrite F in E;
    [discriminate |].
  injection E as _ <-. lia.
Qed.

(** Among the eight years after any year there is a leap year, and the
    search finds it. *)
Lemma leap_year_within_eight (year : Z) :
  exists found calls,
    get_next_leap_year_fuel 8 year = Some (found, calls)
    /\ (calls <= 7)%nat
    /\ found = year + 1 + Z.of_nat calls
    /\ is_leap_year found = true.
Proof.
  cbn [get_next_leap_year_fuel].
  destruct (is_leap_year (year + 1)) eqn:E1;
    [ exists (year + 1), 0%nat; repeat split; auto; lia | ].
  destruct (is_leap_year (year + 1 + 1)) eqn:E2;
    [ exists (year + 1 + 1), 1%nat; repeat split; auto; lia | ].
  destruct (is_leap_year (year + 1 + 1 + 1)) eqn:E3;
    [ exists (year + 1 + 1 + 1), 2%nat; repeat split; auto; lia | ].
  destruct (is_leap_year (year + 1 + 1 + 1 + 1)) eqn:E4;
    [ exists (year + 1 + 1 + 1 + 1), 3%nat; repeat split; auto; lia | ].
  destruct (is_leap_year (year + 1 + 1 + 1 + 1 + 1)) eqn:E5;
    [ exists (year + 1 + 1 + 1 + 1 + 1), 4%nat;
      repeat split; auto; lia | ].
  destruct (is_leap_year (year + 1 + 1 + 1 + 1 + 1 + 1)) eqn:E6;
    [ exists (year + 1 + 1 + 1 + 1 + 1 + 1), 5%nat;
      repeat split; auto; lia | ].
  destruct (is_leap_year (year + 1 + 1 + 1 + 1 + 1 + 1 + 1)) eqn:E7;
    [ exists (year + 1 + 1 + 1 + 1 + 1 + 1 + 1), 6%nat;
      repeat split; auto; lia | ].
  destruct (is_leap_year (year + 1 + 1 + 1 + 1 + 1 + 1 + 1 + 1)) eqn:E8;
    [ exists (year + 1 + 1 + 1 + 1 + 1 + 1 + 1 + 1), 7%nat;
      repeat split; auto; lia | ].
  exfalso.
  destruct (multiple_of_four_ahead year) as [H | [H | [H | H]]].
  - apply leap_four_years_later in E1; [| exact H].
    replace (year + 1 + 4) with (year + 1 + 1 + 1 + 1 + 1) in E1 by lia.
    congruence.
  - replace (year + 2) with (year + 1 + 1) in H by lia.
    apply leap_four_years_later in E2; [| exact H].
    replace (year + 1 + 1 + 4) with (year + 1 + 1 + 1 + 1 + 1 + 1) in E2
      by lia.
    congruence.
  - replace (year + 3) with (year + 1 + 1 + 1) in H by lia.
    apply leap_four_years_later in E3; [| exact H].
    replace (year + 1 + 1 + 1 + 4)
      with (year + 1 + 1 + 1 + 1 + 1 + 1 + 1) in E3 by lia.
    congruence.
  - replace (year + 4) with (year + 1 + 1 + 1 + 1) in H by lia.
    apply leap_four_years_later in E4; [| exact H].
    replace (year + 1 + 1 + 1 + 1 + 4)
      with (year + 1 + 1 + 1 + 1 + 1 + 1 + 1 + 1) in E4 by lia.
    congruence.
Qed.

(** C9, amended: for every year the search for the next leap year
    terminates: eight activations of the function, that is at most seven
    recursive calls, always yield the result, which is a leap year and
    lies [calls + 1] years after the input. *)
Theorem get_next_leap_year_total (year : Z) :
  exists found calls,
    get_next_leap_year_fuel 8 year = Some (found, calls)
    /\ get_next_leap_year year = found
    /\ (calls <= 7)%nat
    /\ found = year + 1 + Z.of_nat calls
    /\ is_leap_year found = true.
Proof.
  destruct (leap_year_within_eight year) as (found & calls & E & B & F & L).
  exists found, calls. repeat split; try assumption.
  unfold get_next_leap_year. now rewrite E.
Qed.

(** More fuel does not change a result. *)
Lemma get_next_leap_year_fuel_mono (fuel : nat) :
  forall year r,
    get_next_leap_year_fuel fuel year = Some r ->
    get_next_leap_year_fuel (S fuel) year = Some r.
Proof.
  induction fuel as [| fuel IH]; intros year r; [discriminate |].
  intros E. cbn [get_next_leap_year_fuel] in E.
  change (get_next_leap_year_fuel (S (S fuel)) year)
    with (let next_year := year + 1 in
          if is_leap_year next_year then Some (next_year, O)
          else match get_next_leap_year_fuel (S fuel) next_year with
               | Some (found, calls) => Some (found, S calls)
               | None => None
               end).
  cbv zeta. destruct (is_leap_year (year + 1)); [exact E |].
  destruct (get_next_leap_year_fuel fuel (year + 1)) as [[f c] |] eqn:F;
    [| discriminate].
  now rewrite (IH _ _ F).
Qed.

(** ** Conversions between zones *)

Section ZoneFacts.

Context {tz : Type} `{TzLaws tz}.

Lemma astimezone_instant (dt : datetime tz) (z target : tz) :
  tzinfo dt = Some z ->
  instant (astimezone dt (Some target)) = instant dt.
Proof.
  intros Hz. unfold astimezone. rewrite Hz.
  destruct (tz_is target z); [reflexivity |].
  unfold instant. cbv zeta. cbn [wall fold tzinfo]. rewrite Hz.
  now rewrite fromutc_utcoffset.
Qed.

Lemma astimezone_tzinfo (dt : datetime tz) (z target : tz) :
  tzinfo dt = Some z ->
  tzinfo (astimezone dt (Some target)) = Some target.
Proof.
  intros Hz. unfold astimezone. rewrite Hz.
  destruct (tz_is target z) eqn:E; [| reflexivity].
  apply tz_is_eq in E. now subst.
Qed.

(** C8: a datetime with a zone is converted to the target zone (UTC, the
    default zone, the system zone) and denotes the same instant; a naive
    datetime is read as a wall clock of the default zone (the zone given
    to [set_default_tz], the system zone when the registry is empty),
    never as UTC, and then converted: the instant it is given is its wall
    clock less the offset of the default zone. *)
Theorem conversions_read_naive_in_default_zone
    (r : registry tz) (dt : datetime tz) :
  (forall z, tzinfo dt = Some z ->
     (instant (to_utc r dt) = instant dt
      /\ tzinfo (to_utc r dt) = Some tz_utc)
     /\ (instant (to_local r dt) = instant dt
         /\ tzinfo (to_local r dt) = Some (default_timezone r))
     /\ (instant (to_system r dt) = instant dt
         /\ tzinfo (to_system r dt) = Some tzlocal))
  /\ (tzinfo dt = None ->
      let in_default :=
        wall dt - utcoffset (default_timezone r) (wall dt) (fold dt) in
      (instant (to_utc r dt) = Some in_default
       /\ tzinfo (to_utc r dt) = Some tz_utc)
      /\ to_local r dt = replace_tzinfo dt (default_timezone r)
      /\ (instant (to_system r dt) = Some in_default
          /\ tzinfo (to_system r dt) = Some tzlocal))
  /\ (forall z, default_timezone (set_default_tz r (TzObject z)) = z)
  /\ (forall name,
         default_timezone (set_default_tz r (TzName name))
         = match gettz name with Some z => z | None => tzlocal end)
  /\ default_timezone (@initial_registry tz) = tzlocal.
Proof.
  repeat split; try reflexivity; intros;
    unfold to_utc, to_local, to_system; rewrite ?gettz_utc;
    match goal with E : tzinfo dt = _ |- _ => rewrite E end;
    try reflexivity;
    first
      [ eapply astimezone_tzinfo; (eassumption || reflexivity)
      | erewrite astimezone_instant by (eassumption || reflexivity);
        reflexivity
      | idtac ].
Qed.

(** C10: for a datetime with a zone, [to_local (to_utc dt)] denotes the
    instant [dt] denotes, in the default zone, whatever the registry
    holds at either call. *)
Theorem to_local_to_utc_same_instant
    (r1 r2 : registry tz) (dt : datetime tz) (z : tz) :
  tzinfo dt = Some z ->
  instant (to_local r2 (to_utc r1 dt)) = instant dt
  /\ tzinfo (to_local r2 (to_utc r1 dt)) = Some (default_timezone r2).
Proof.
  intros Hz.
  assert (U : tzinfo (to_utc r1 dt) = Some tz_utc).
  { unfold to_utc. rewrite Hz, gettz_utc.
    eapply astimezone_tzinfo; eassumption. }
  assert (I : instant (to_utc r1 dt) = instant dt).
  { unfold to_utc. rewrite Hz, gettz_utc.
    eapply astimezone_instant; eassumption. }
  unfold to_local. rewrite U. split.
  - rewrite <- I. eapply astimezone_instant; eassumption.
  - eapply astimezone_tzinfo; eassumption.
Qed.

End ZoneFacts.

(** Constant offsets obey the laws. *)
Lemma fixed_offset_laws : TzLaws Z.
Proof.
  split.
  - intros a b E. now apply Z.eqb_eq.
  - intros z u. cbn. lia.
  - intros w f. reflexivity.
  - reflexivity.
Qed.

(** A naive noon with the default zone one hour east of UTC is 11:00 in
    UTC and 13:00 in the system zone of the instance (two hours east);
    [to_local] only attaches the default zone. *)
Lemma conversions_read_naive_in_default_zone_witness :
  let r : registry Z :=
    set_default_tz initial_registry (TzName "Etc/GMT-1") in
  let dt : datetime Z := mkdt (12 * hour_us) false None in
  TzLaws Z
  /\ to_utc r dt = mkdt (11 * hour_us) false (Some 0)
  /\ to_local r dt = mkdt (12 * hour_us) false (Some hour_us)
  /\ to_system r dt = mkdt (13 * hour_us) false (Some (2 * hour_us))
  /\ instant (to_utc r dt) = Some (11 * hour_us)
  /\ instant (to_system r dt) = Some (11 * hour_us).
Proof.
  intros r dt.
  pose proof (@conversions_read_naive_in_default_zone
                Z fixed_offset_tz fixed_offset_laws r dt) as (_ & N & _).
  destruct (N eq_refl) as ((I1 & _) & _ & (I2 & _)).
  exact (conj fixed_offset_laws
           (conj eq_refl (conj eq_refl (conj eq_refl (conj I1 I2))))).
Defined.

(** 14:00 in the zone two hours east, sent through UTC and back to a
    default zone one hour east, is 13:00 there: the same instant. *)
Lemma to_local_to_utc_same_instant_witness :
  let dt : datetime Z := mkdt (14 * hour_us) false (Some (2 * hour_us)) in
  let r1 : registry Z := None in
  let r2 : registry Z := Some hour_us in
  TzLaws Z
  /\ tzinfo dt = Some (2 * hour_us)
  /\ to_local r2 (to_utc r1 dt) = mkdt (13 * hour_us) false (Some hour_us)
  /\ instant (to_local r2 (to_utc r1 dt)) = instant dt
  /\ tzinfo (to_local r2 (to_utc r1 dt)) = Some (default_timezone r2).
Proof.
  intros dt r1 r2.
  pose proof (@to_local_to_utc_same_instant
                Z fixed_offset_tz fixed_offset_laws r1 r2 dt
                (2 * hour_us) eq_refl) as R.
  exact (conj fixed_offset_laws (conj eq_refl (conj eq_refl R))).
Defined.

End TimeFacts.

(* ================================================================== *)
(** * Properties of the extraction engine                              *)
(* ================================================================== *)

Module ParseFacts.

Import Lexicon Parse.

#[local] Open Scope string_scope.
#[local] Open Scope list_scope.

(** A property of the words of a concrete text, word by word. *)
Ltac each_word :=
  unfold no_number_word, all_inert, no_datetime_word;
  lazymatch goal with
  | |- Forall _ ?l =>
      let l' := eval vm_compute in l in
      replace l with l' by (vm_compute; reflexivity)
  end;
  repeat first
    [ apply Forall_nil
    | apply Forall_cons; [vm_compute; reflexivity |] ].

(** A closed instance of the engine, by evaluation. *)
Ltac evaluate := vm_compute; reflexivity.

(** The conjuncts of the goal, equations left alone. *)
Ltac conjuncts := repeat match goal with |- _ /\ _ => split end.

(** ** Rationals in lowest terms *)

Lemma Qred_coprime (q : Q) :
  Z.gcd (Qnum q) (Zpos (Qden q)) = 1%Z -> Qred q = q.
Proof.
  destruct q as [n d]. unfold Qred. cbn [Qnum Qden]. intros G.
  pose proof (Z.ggcd_gcd n (Zpos d)) as Hg.
  pose proof (Z.ggcd_correct_divisors n (Zpos d)) as Hd.
  destruct (Z.ggcd n (Zpos d)) as [g [a b]]. cbn [fst snd] in *.
  rewrite G in Hg. subst g. destruct Hd as [Ha Hb].
  rewrite Z.mul_1_l in Ha, Hb. subst a b. reflexivity.
Qed.

Lemma Qred_inject_Z (n : Z) : Qred (inject_Z n) = inject_Z n.
Proof. apply Qred_coprime. cbn. apply Z.gcd_1_r. Qed.

Lemma Qred_inv_inject_Z (n : Z) :
  (0 < n)%Z -> Qred (/ inject_Z n) = (1 # Z.to_pos n)%Q.
Proof.
  destruct n as [| p | p]; try lia. intros _.
  apply Qred_coprime. cbn. reflexivity.
Qed.

(** ** Texts without number words *)

Section NumberFacts.

Variables (ordinals : option bool) (short_scale : bool).

Lemma number_simple_no_number (t : string) (rest : list string) :
  is_number_word (classify short_scale (lower t)) = false ->
  number_simple ordinals short_scale (t :: rest) = None.
Proof.
  unfold number_simple. cbv zeta.
  destruct (classify short_scale (lower t)); cbn [is_number_word];
    intros H; try discriminate H; reflexivity.
Qed.

Lemma skip_articles_no_number (toks : list string) :
  no_number_word short_scale toks ->
  no_number_word short_scale (skip_articles short_scale toks).
Proof.
  induction 1 as [| t rest Ht Hrest IH]; cbn [skip_articles].
  - constructor.
  - destruct (classify short_scale (lower t)) eqn:E;
      try (constructor; [rewrite E |]; assumption).
    exact IH.
Qed.

Lemma number_simple_none (toks : list string) :
  no_number_word short_scale toks ->
  number_simple ordinals short_scale toks = None.
Proof.
  intros [| t rest Ht _]; [reflexivity |].
  now apply number_simple_no_number.
Qed.

Lemma number_core_none (toks : list string) :
  no_number_word short_scale toks ->
  number_core ordinals short_scale toks = None.
Proof.
  intros H. unfold number_core. now rewrite number_simple_none.
Qed.

Lemma number_at_none (toks : list string) :
  no_number_word short_scale toks ->
  number_at ordinals short_scale toks = None.
Proof.
  intros H. apply skip_articles_no_number in H. unfold number_at.
  destruct (skip_articles short_scale toks) as [| t rest]; [reflexivity |].
  inversion H as [| ? ? Ht Hrest]; subst.
  destruct (classify short_scale (lower t)) eqn:E;
    try (apply number_core_none; constructor; [rewrite E |]; assumption).
  now rewrite number_core_none.
Qed.

Lemma first_number_none (toks : list string) :
  no_number_word short_scale toks ->
  first_number ordinals short_scale toks = PyFalse.
Proof.
  induction 1 as [| t rest Ht Hrest IH]; [reflexivity |].
  cbn [first_number]. rewrite number_at_none; [exact IH |].
  now constructor.
Qed.

Lemma inert_no_number (toks : list string) :
  all_inert short_scale toks -> no_number_word short_scale toks.
Proof.
  apply Forall_impl. intros t.
  now destruct (classify short_scale (lower t)).
Qed.

(** ** Words in front of a number *)



(** In front of a word that is no article, the articles are skipped up
    to that word or up to an inert word before it. *)
Lemma skip_articles_inert_prefix (pre : list string) (w : string)
    (post : list string) :
  all_inert short_scale pre ->
  classify short_scale (lower w) <> WArticle ->
  skip_articles short_scale (pre ++ w :: post) = w :: post
  \/ exists x rest,
       skip_articles short_scale (pre ++ w :: post) = x :: rest
       /\ is_number_word (classify short_scale (lower x)) = false
       /\ classify short_scale (lower x) <> WNegative.
Proof.
  intros Hpre Hw.
  induction Hpre as [| t pre Ht Hpre IH]; cbn [app skip_articles].
  - left. destruct (classify short_scale (lower w)); congruence.
  - destruct (classify short_scale (lower t)) eqn:E; try discriminate Ht;
      try (right; exists t, (pre ++ w :: post); rewrite E;
           repeat split; (reflexivity || congruence)).
    exact IH.
Qed.

Lemma number_at_inert_prefix (pre : list string) (w : string)
    (post : list string) :
  all_inert short_scale pre ->
  classify short_scale (lower w) <> WArticle ->
  classify short_scale (lower w) <> WNegative ->
  number_at ordinals short_scale (pre ++ w :: post) = None
  \/ number_at ordinals short_scale (pre ++ w :: post)
     = number_core ordinals short_scale (w :: post).
Proof.
  intros Hpre Ha Hn. unfold number_at.
  destruct (skip_articles_inert_prefix pre w post Hpre Ha)
    as [-> | (x & rest & -> & Hx & Hneg)].
  - right. destruct (classify short_scale (lower w)); congruence.
  - left. unfold number_core.
    rewrite (number_simple_no_number x rest Hx).
    destruct (classify short_scale (lower x)); congruence.
Qed.

Lemma number_at_head (w : string) (post : list string) :
  classify short_scale (lower w) <> WArticle ->
  classify short_scale (lower w) <> WNegative ->
  number_at ordinals short_scale (w :: post)
  = number_core ordinals short_scale (w :: post).
Proof.
  intros Ha Hn. unfold number_at. cbn [skip_articles].
  destruct (classify short_scale (lower w)) eqn:E; try congruence;
    rewrite E; reflexivity.
Qed.

Lemma first_number_inert_prefix (pre : list string) (w : string)
    (post : list string) :
  all_inert short_scale pre ->
  classify short_scale (lower w) <> WArticle ->
  classify short_scale (lower w) <> WNegative ->
  first_number ordinals short_scale (pre ++ w :: post)
  = first_number ordinals short_scale (w :: post).
Proof.
  intros Hpre Ha Hn.
  induction Hpre as [| t pre Ht Hpre IH]; [reflexivity |].
  destruct (number_at_inert_prefix (t :: pre) w post) as [E | E];
    try assumption; [now constructor | |];
    change ((t :: pre) ++ w :: post) with (t :: (pre ++ w :: post)) in *;
    cbn [first_number]; rewrite E.
  - exact IH.
  - rewrite IH. cbn [first_number]. rewrite number_at_head by assumption.
    now destruct (number_core ordinals short_scale (w :: post)) as [[v r] |].
Qed.

(** ** Words behind a number *)

Lemma ordinal_tail_inert (v : Q) (post : list string) :
  all_inert short_scale post ->
  ordinal_tail short_scale v post = (v, post).
Proof.
  intros [| t rest Ht _]; [reflexivity |]. cbn [ordinal_tail].
  now destruct (classify short_scale (lower t)).
Qed.

Lemma fraction_tail_inert (v : Q) (post : list string) :
  all_inert short_scale post ->
  fraction_tail short_scale v post = (v, post).
Proof.
  intros [| t rest Ht _]; [reflexivity |]. cbn [fraction_tail].
  unfold fraction_factor. now destruct (classify short_scale (lower t)).
Qed.

(** No fraction is joined by the marker when no number word follows. *)
Lemma number_core_inert_rest (toks : list string) (v : Q)
    (post : list string) :
  number_simple ordinals short_scale toks = Some (v, post) ->
  all_inert short_scale post ->
  number_core ordinals short_scale toks = Some (v, post).
Proof.
  intros E Hpost. unfold number_core. rewrite E.
  destruct Hpost as [| t rest Ht Hrest]; [reflexivity |].
  destruct (classify short_scale (lower t)); try reflexivity.
  rewrite number_simple_none; [reflexivity |].
  now apply skip_articles_no_number, inert_no_number.
Qed.

End NumberFacts.

(** ** The tokens after a match are tokens of the text *)


Section Tails.

Variable P : string -> Prop.
Variables (ordinals : option bool) (short_scale : bool).










End Tails.

(** ** The model on the test suite

    Assertions of [test_parse_en.py] that the model reproduces.  A call
    without the [ordinals] argument is run with [ordinals=False], the value
    such calls are tested against ("Twenty two and Three Fifths" is
    22.6). *)

Lemma extract_number_on_test_suite :
  extract_number "this is 2 test" (Some false) true = Num 2
  /\ extract_number "this is test number 4" (Some false) true = Num 4
  /\ extract_number "three cups" (Some false) true = Num 3
  /\ extract_number "1/3 cups" (Some false) true = Num (1 # 3)
  /\ extract_number "quarter cup" (Some false) true = Num (1 # 4)
  /\ extract_number "one fourth cup" (Some false) true = Num (1 # 4)
  /\ extract_number "1 and 3/4 cups" (Some false) true = Num (7 # 4)
  /\ extract_number "one and a half cups" (Some false) true = Num (3 # 2)
  /\ extract_number "three quarters cups" (Some false) true = Num (3 # 4)
  /\ extract_number "twenty Two with Two capital letters" (Some false) true
     = Num 22
  /\ extract_number "six hundred sixty six" (Some false) true = Num 666
  /\ extract_number "six trillion" (Some false) true
     = Num 6000000000000
  /\ extract_number "six trillion" (Some false) false
     = Num 6000000000000000000
  /\ extract_number "three dot fourteen" (Some false) true = Num (157 # 50)
  /\ extract_number "billions of years older" (Some false) true
     = Num 1000000000
  /\ extract_number "one hundred thousand" (Some false) true = Num 100000
  /\ extract_number "negative seventy" (Some false) true = Num (-70)
  /\ extract_number "thousand million" (Some false) true = Num 1000000000
  /\ extract_number "nine hundred ninety nine million nine hundred ninety
                     nine thousand nine hundred ninety nine point nine"
       (Some false) true
     = Num (9999999999 # 10)
  /\ extract_number "eight hundred trillion two hundred fifty seven"
       (Some false) true
     = Num 800000000000257
  /\ extract_number "a couple hundred beers" (Some false) true = Num 200
  /\ extract_number "totally 100%" (Some false) true = Num 100
  /\ extract_number "this is the 7th test" (Some false) true = Num 7
  /\ extract_number "this is the first test" (Some false) true = PyFalse
  /\ extract_number "this is second test" (Some false) true = PyFalse
  /\ extract_number "one third of a cup" None true = Num 1
  /\ extract_number "one third of a cup" (Some true) true = Num 3
  /\ extract_number "2 fifths" (Some false) true = Num (2 # 5)
  /\ extract_number "2 fifths" None true = Num 2
  /\ extract_number "Twenty two and Three Fifths" (Some false) true
     = Num (113 # 5)
  /\ extract_number "Twenty two and Three Fifths" (Some true) true = Num 22
  /\ extract_number "sixth third" (Some true) true = Num 3
  /\ extract_number "sixth third" (Some false) true = Num (1 # 18)
  /\ extract_number "sixth third" None true = PyFalse
  /\ extract_number "thirty second" (Some true) true = Num 32
  /\ extract_number "thirty second" None true = Num 30
  /\ extract_number "the thirty sixth one" (Some true) true = Num 36
  /\ extract_number "you are the second one" (Some false) true = Num 1.
Proof. conjuncts; evaluate. Qed.

(** ** The number extractor *)

(** C1: in a text whose only number word is one ordinal word that also
    names a fraction (rank above two in the ordinal table of the chosen
    scale), the other words being neither number words nor negative
    markers, [extract_number] yields the rank with [ordinals=True], the
    reciprocal of the rank with [ordinals=False] and [False] with
    [ordinals=None]; "third" and "billionth" are the instances of the
    test suite, "billionth" having rank 1e9 on the short and 1e12 on the
    long scale. *)
Theorem lone_ambiguous_ordinal :
  (forall (short_scale : bool) (w : string) (rank : Z),
      classify short_scale w = WOrdinal rank ->
      dict_get (if short_scale then _STRING_SHORT_ORDINAL_EN
                else _STRING_LONG_ORDINAL_EN) w = Some rank)
  /\ (forall (text : string) (short_scale : bool) (pre : list string)
          (w : string) (post : list string) (rank : Z),
      tokenize text = pre ++ w :: post ->
      all_inert short_scale pre -> all_inert short_scale post ->
      classify short_scale (lower w) = WOrdinal rank ->
      (2 < rank)%Z ->
      extract_number text (Some true) short_scale = Num (inject_Z rank)
      /\ extract_number text (Some false) short_scale
         = Num (1 # Z.to_pos rank)
      /\ extract_number text None short_scale = PyFalse)
  /\ (extract_number "this is the third test" (Some true) true = Num 3
      /\ extract_number "this is the third test" (Some false) true
         = Num (1 # 3)
      /\ extract_number "this is the third test" None true = PyFalse)
  /\ (extract_number "this is the billionth test" (Some true) true
      = Num (1000000000 # 1)
      /\ extract_number "this is the billionth test" (Some false) true
         = Num (1 # 1000000000)
      /\ extract_number "this is the billionth test" None true = PyFalse)
  /\ (extract_number "this is the billionth test" (Some true) false
      = Num (1000000000000 # 1)
      /\ extract_number "this is the billionth test" (Some false) false
         = Num (1 # 1000000000000)
      /\ extract_number "this is the billionth test" None false = PyFalse).
Proof.
  split; [| split; [| conjuncts; evaluate]].
  { intros short_scale w rank. unfold classify, string_num_ordinal.
    destruct (mem w _ARTICLES_EN); [discriminate |].
    destruct (mem w _NEGATIVES_EN); [discriminate |].
    destruct (mem w _FRACTION_MARKER_EN); [discriminate |].
    destruct (mem w _DECIMAL_MARKER_EN); [discriminate |].
    destruct (dict_get _STRING_NUM_EN w); [discriminate |].
    destruct (dict_get _SPOKEN_EXTRA_NUM_EN w); [discriminate |].
    destruct (dict_get (string_num_scale short_scale) w); [discriminate |].
    destruct (dict_get (if short_scale then _STRING_SHORT_ORDINAL_EN
                        else _STRING_LONG_ORDINAL_EN) w) as [r |].
    - intros E. now injection E as ->.
    - destruct (read_literal w) as [[q | n] |]; try discriminate.
      destruct (has_digit w); [discriminate |].
      destruct (fraction_denominator short_scale w); [discriminate |].
      destruct (strip_suffix "s" w) as [stem |]; [| discriminate].
      destruct (fraction_denominator short_scale stem); discriminate. }
  intros text short_scale pre w post rank Htok Hpre Hpost Hw Hrank.
  unfold extract_number. rewrite Htok.
  assert (Ha : classify short_scale (lower w) <> WArticle) by congruence.
  assert (Hn : classify short_scale (lower w) <> WNegative) by congruence.
  rewrite !first_number_inert_prefix by assumption.
  cbn [first_number]. rewrite !number_at_head by assumption.
  repeat split.
  - rewrite (number_core_inert_rest _ _ _ (inject_Z rank) post);
      [ now rewrite Qred_inject_Z | | assumption ].
    unfold number_simple. cbv zeta. rewrite Hw.
    now rewrite ordinal_tail_inert.
  - rewrite (number_core_inert_rest _ _ _ (/ inject_Z rank)%Q post);
      [ rewrite Qred_inv_inject_Z by lia; reflexivity | | assumption ].
    unfold number_simple. cbv zeta. rewrite Hw.
    apply Z.ltb_lt in Hrank. rewrite Hrank.
    now rewrite fraction_tail_inert.
  - unfold number_core, number_simple. cbv zeta. rewrite Hw.
    now apply first_number_none, inert_no_number.
Qed.

Lemma lone_ambiguous_ordinal_witness :
  tokenize "the Billionth plain" = ["the"] ++ "Billionth" :: ["plain"]
  /\ all_inert false ["the"] /\ all_inert false ["plain"]
  /\ classify false (lower "Billionth") = WOrdinal (10 ^ 12)
  /\ (2 < 10 ^ 12)%Z
  /\ extract_number "the Billionth plain" (Some true) false
     = Num (inject_Z (10 ^ 12))
  /\ extract_number "the Billionth plain" (Some false) false
     = Num (1 # Z.to_pos (10 ^ 12))
  /\ extract_number "the Billionth plain" None false = PyFalse.
Proof.
  assert (T : tokenize "the Billionth plain"
              = ["the"] ++ "Billionth" :: ["plain"]) by evaluate.
  assert (A : all_inert false ["the"]) by each_word.
  assert (B : all_inert false ["plain"]) by each_word.
  assert (C : classify false (lower "Billionth") = WOrdinal (10 ^ 12))
    by evaluate.
  assert (D : (2 < 10 ^ 12)%Z) by reflexivity.
  pose proof (proj1 (proj2 lone_ambiguous_ordinal) _ _ _ _ _ _ T A B C D)
    as R.
  exact (conj T (conj A (conj B (conj C (conj D R))))).
Defined.





(** ** The duration extractor *)




Lemma extract_duration_on_test_suite :
  extract_duration "10 seconds" = (mk_timedelta 0 0 0 0 10, "")
  /\ extract_duration "25 weeks" = (mk_timedelta 25 0 0 0 0, "")
  /\ extract_duration "seven hours" = (mk_timedelta 0 0 7 0 0, "")
  /\ extract_duration "7.5 seconds" = (mk_timedelta 0 0 0 0 (75 / 10), "")
  /\ extract_duration "Set a timer for 30 minutes"
     = (mk_timedelta 0 0 0 30 0, "Set a timer for")
  /\ extract_duration "Four and a Half minutes until sunset"
     = (mk_timedelta 0 0 0 (45 / 10) 0, "until sunset")
  /\ extract_duration "Nineteen minutes past THE hour"
     = (mk_timedelta 0 0 0 19 0, "past THE hour").
Proof. conjuncts; evaluate. Qed.

(** ** The date-time resolver *)

#[local] Open Scope Z_scope.








(** The anchor of [test_extractdatetime_en], Tuesday 2017-06-27 13:04. *)
Lemma extract_datetime_on_test_suite :
  let anchor := mkdatetime 2017 6 27 13 4 0 in
  let at_ text := extract_datetime text anchor None in
  at_ "in a second" = Some (mkdatetime 2017 6 27 13 4 1, ""%string)
  /\ at_ "in a couple minutes"
     = Some (mkdatetime 2017 6 27 13 6 0, ""%string)
  /\ at_ "in a couple hours"
     = Some (mkdatetime 2017 6 27 15 4 0, ""%string)
  /\ at_ "in a couple months"
     = Some (mkdatetime 2017 8 27 0 0 0, ""%string)
  /\ at_ "in a couple years"
     = Some (mkdatetime 2019 6 27 0 0 0, ""%string)
  /\ at_ "in a decade" = Some (mkdatetime 2027 6 27 0 0 0, ""%string)
  /\ at_ "in 2 centuries" = Some (mkdatetime 2217 6 27 0 0 0, ""%string)
  /\ at_ "in an hour" = Some (mkdatetime 2017 6 27 14 4 0, ""%string)
  /\ at_ "set ambush in 1 minute"
     = Some (mkdatetime 2017 6 27 13 5 0, "set ambush"%string)
  /\ at_ "remind me to call mom in an hour"
     = Some (mkdatetime 2017 6 27 14 4 0, "remind me to call mom"%string)
  /\ at_ "remind me to call mom at 7 o'clock"
     = Some (mkdatetime 2017 6 27 19 0 0, "remind me to call mom"%string)
  /\ at_ "what is tomorrow's weather"
     = Some (mkdatetime 2017 6 28 0 0 0, "what is weather"%string).
Proof. intros anchor at_. conjuncts; evaluate. Qed.




End ParseFacts.

(* ================================================================== *)
(** * Further properties of time.py                                    *)
(* ================================================================== *)

Module LeapYearFacts.

Import Time TimeFacts.



(** What a search that returns has found: the year lies [calls + 1] years
    ahead, is a leap year, and every year passed over is none. *)
Lemma get_next_leap_year_fuel_sound (fuel : nat) :
  forall year found calls,
    get_next_leap_year_fuel fuel year = Some (found, calls) ->
    found = year + 1 + Z.of_nat calls
    /\ is_leap_year found = true
    /\ forall y, year < y < found -> is_leap_year y = false.
Proof.
  induction fuel as [| fuel IH]; intros year found calls; [discriminate |].
  cbn [get_next_leap_year_fuel]. cbv zeta.
  destruct (is_leap_year (year + 1)) eqn:L.
  - intros E. injection E as <- <-. repeat split; [lia | exact L | lia].
  - destruct (get_next_leap_year_fuel fuel (year + 1)) as [[f c] |] eqn:F;
      [| discriminate].
    intros E. injection E as <- <-.
    destruct (IH _ _ _ F) as (Hf & Hl & Hb).
    repeat split; [lia | exact Hl |].
    intros y Hy. destruct (Z.eq_dec y (year + 1)) as [-> | N];
      [exact L | apply Hb; lia].
Qed.

Lemma get_next_leap_year_sound (year : Z) :
  year < get_next_leap_year year <= year + 8
  /\ is_leap_year (get_next_leap_year year) = true
  /\ forall y, year < y < get_next_leap_year year -> is_leap_year y = false.
Proof.
  destruct (leap_year_within_eight year) as (found & calls & E & B & _).
  destruct (get_next_leap_year_fuel_sound _ _ _ _ E) as (F & L & N).
  unfold get_next_leap_year. rewrite E.
  repeat split; [lia | lia | exact L | exact N].
Qed.

Lemma get_next_leap_year_unique (year g : Z) :
  year < g ->
  is_leap_year g = true ->
  (forall y, year < y < g -> is_leap_year y = false) ->
  g = get_next_leap_year year.
Proof.
  intros Hg Lg Ng.
  destruct (get_next_leap_year_sound year) as (B & L & N).
  destruct (Z.lt_trichotomy g (get_next_leap_year year)) as [C | [C | C]];
    [| exact C |].
  - rewrite N in Lg by lia. discriminate.
  - rewrite Ng in L by lia. discriminate.
Qed.

(** X1: the result of [get_next_leap_year] is the least leap year after
    [year]: a year [g] is the result exactly when it comes after [year],
    is a leap year, and no year in between is one. *)
Theorem get_next_leap_year_least (year g : Z) :
  g = get_next_leap_year year
  <-> (year < g
       /\ is_leap_year g = true
       /\ forall y, year < y < g -> is_leap_year y = false).
Proof.
  split.
  - intros ->. destruct (get_next_leap_year_sound year) as (B & L & N).
    repeat split; [lia | exact L | exact N].
  - intros (Hg & Lg & Ng). now apply get_next_leap_year_unique.
Qed.

Lemma get_next_leap_year_least_witness :
  1896 < 1904
  /\ is_leap_year 1904 = true
  /\ forall y, 1896 < y < 1904 -> is_leap_year y = false.
Proof. exact (proj1 (get_next_leap_year_least 1896 1904) eq_refl). Defined.

(** X2: between a year and the leap year that follows it the search gives one
    answer. *)
Theorem get_next_leap_year_constant_between (year y : Z) :
  year <= y < get_next_leap_year year ->
  get_next_leap_year y = get_next_leap_year year.
Proof.
  intros Hy. symmetry.
  destruct (get_next_leap_year_sound year) as (B & L & N).
  apply get_next_leap_year_unique; [lia | exact L |].
  intros y' Hy'. apply N. lia.
Qed.

Lemma get_next_leap_year_constant_between_witness :
  2020 <= 2023 < get_next_leap_year 2020
  /\ get_next_leap_year 2023 = get_next_leap_year 2020
  /\ get_next_leap_year 2020 = 2024.
Proof.
  assert (B : 2020 <= 2023 < get_next_leap_year 2020)
    by (vm_compute; split; [discriminate | reflexivity]).
  exact (conj B (conj (get_next_leap_year_constant_between 2020 2023 B)
                   eq_refl)).
Defined.

Lemma get_next_leap_year_le (year year' : Z) :
  year <= year' -> get_next_leap_year year <= get_next_leap_year year'.
Proof.
  intros Hy.
  destruct (Z.lt_ge_cases year' (get_next_leap_year year)) as [C | C].
  - assert (E : get_next_leap_year year' = get_next_leap_year year).
    { symmetry.
      destruct (get_next_leap_year_sound year) as (B & L & N).
      apply get_next_leap_year_unique; [lia | exact L |].
      intros y' Hy'. apply N. lia. }
    lia.
  - destruct (get_next_leap_year_sound year') as (B & _). lia.
Qed.

(** X3: [get_next_leap_year] is monotone, and strictly so from one leap year
    to a later one. *)
Theorem get_next_leap_year_monotone (year year' : Z) :
  year <= year' ->
  get_next_leap_year year <= get_next_leap_year year'
  /\ (get_next_leap_year year <= year' ->
      get_next_leap_year year < get_next_leap_year year').
Proof.
  intros Hy. split; [now apply get_next_leap_year_le |].
  intros C. destruct (get_next_leap_year_sound year') as (B & _). lia.
Qed.

Lemma get_next_leap_year_monotone_witness :
  1896 <= 1903
  /\ get_next_leap_year 1896 <= get_next_leap_year 1903
  /\ (get_next_leap_year 1896 <= 1903 ->
      get_next_leap_year 1896 < get_next_leap_year 1903).
Proof.
  assert (B : 1896 <= 1903) by lia.
  exact (conj B (get_next_leap_year_monotone 1896 1903 B)).
Defined.

Lemma is_leap_year_false_iff (y : Z) :
  is_leap_year y = false
  <-> (y mod 400 <> 0 /\ (y mod 4 <> 0 \/ y mod 100 = 0)).
Proof.
  unfold is_leap_year.
  rewrite orb_false_iff, andb_false_iff, negb_false_iff, !Z.eqb_neq, Z.eqb_eq.
  reflexivity.
Qed.

Ltac leap_arith :=
  repeat match goal with
  | H : is_leap_year _ = true |- _ => apply is_leap_year_true in H
  | H : is_leap_year _ = false |- _ => apply is_leap_year_false_iff in H
  | |- is_leap_year _ = true => apply is_leap_year_true
  | |- is_leap_year _ = false => apply is_leap_year_false_iff
  end;
  Z.div_mod_to_equations; lia.

(** X4: from a leap year the next one is four years on, except across a
    century year that is no leap year, where it is eight years on. *)
Theorem get_next_leap_year_from_leap_year (year : Z) :
  is_leap_year year = true ->
  get_next_leap_year year
  = if is_leap_year (year + 4) then year + 4 else year + 8.
Proof.
  intros L. symmetry.
  destruct (is_leap_year (year + 4)) eqn:L4;
    apply get_next_leap_year_unique; try lia; try exact L4.
  - intros y Hy.
    assert (C : y = year + 1 \/ y = year + 2 \/ y = year + 3) by lia.
    destruct C as [-> | [-> | ->]]; leap_arith.
  - leap_arith.
  - intros y Hy.
    assert (C : y = year + 1 \/ y = year + 2 \/ y = year + 3
                \/ y = year + 4 \/ y = year + 5 \/ y = year + 6
                \/ y = year + 7) by lia.
    destruct C as [-> | [-> | [-> | [-> | [-> | [-> | ->]]]]]];
      try exact L4; leap_arith.
Qed.

Lemma get_next_leap_year_from_leap_year_witness :
  is_leap_year 2096 = true
  /\ get_next_leap_year 2096 = 2104
  /\ is_leap_year 2020 = true
  /\ get_next_leap_year 2020 = 2024.
Proof.
  assert (A : is_leap_year 2096 = true) by reflexivity.
  assert (B : is_leap_year 2020 = true) by reflexivity.
  exact (conj A (conj (get_next_leap_year_from_leap_year 2096 A)
           (conj B (get_next_leap_year_from_leap_year 2020 B)))).
Defined.

Lemma is_leap_year_shift (year k : Z) :
  is_leap_year (year + 400 * k) = is_leap_year year.
Proof.
  unfold is_leap_year.
  replace ((year + 400 * k) mod 400) with (year mod 400)
    by (Z.div_mod_to_equations; lia).
  replace ((year + 400 * k) mod 4) with (year mod 4)
    by (Z.div_mod_to_equations; lia).
  replace ((year + 400 * k) mod 100) with (year mod 100)
    by (Z.div_mod_to_equations; lia).
  reflexivity.
Qed.

(** X5: the calendar repeats every 400 years: a shift by a multiple of 400
    changes neither whether a year is a leap year nor how far the next one
    is. *)
Theorem leap_years_repeat_every_400 (year k : Z) :
  is_leap_year (year + 400 * k) = is_leap_year year
  /\ get_next_leap_year (year + 400 * k)
     = get_next_leap_year year + 400 * k.
Proof.
  split; [apply is_leap_year_shift |]. symmetry.
  destruct (get_next_leap_year_sound year) as (B & L & N).
  apply get_next_leap_year_unique; [lia | |].
  - now rewrite is_leap_year_shift.
  - intros y Hy.
    replace y with (y - 400 * k + 400 * k) by lia.
    rewrite is_leap_year_shift. apply N. lia.
Qed.

Lemma leap_years_in_mod (start : Z) (n : nat) :
  leap_years_in start n = leap_years_in (start mod 400) n.
Proof.
  unfold leap_years_in.
  induction (seq 0 n) as [| i l IH]; [reflexivity |].
  cbn [map filter].
  replace (start + Z.of_nat i)
    with (start mod 400 + Z.of_nat i + 400 * (start / 400))
    by (pose proof (Z.div_mod start 400); lia).
  rewrite is_leap_year_shift.
  destruct (is_leap_year (start mod 400 + Z.of_nat i));
    cbn [List.length]; now rewrite IH.
Qed.

Lemma leap_years_in_one_period :
  forallb (fun r => Nat.eqb (leap_years_in (Z.of_nat r) 400) 97)
    (seq 0 400) = true.
Proof. vm_compute. reflexivity. Qed.

(** X6: any 400 consecutive years hold 97 leap years, which makes the mean
    year 365.2425 days long. *)
Theorem leap_years_per_400 (start : Z) :
  leap_years_in start 400 = 97%nat.
Proof.
  rewrite leap_years_in_mod.
  pose proof (Z.mod_pos_bound start 400 ltac:(lia)) as B.
  pose proof leap_years_in_one_period as P.
  rewrite forallb_forall in P.
  specialize (P (Z.to_nat (start mod 400))).
  rewrite Z2Nat.id in P by lia.
  apply Nat.eqb_eq, P, in_seq. lia.
Qed.

End LeapYearFacts.

Module ClockFacts.

Import Time TimeFacts.



Section Composition.

Context {tz : Type} `{TzLaws tz}.

(** [astimezone] on a datetime with a zone, in terms of [datetime_now]:
    unless the target is the receiver's own zone object, the result is
    the target's reading of the receiver's instant. *)
Lemma astimezone_aware (dt : datetime tz) (z target : tz) :
  tzinfo dt = Some z ->
  astimezone dt (Some target)
  = if tz_is target z then dt
    else datetime_now (wall dt - utcoffset z (wall dt) (fold dt))
           (Some target).
Proof. intros Hz. unfold astimezone, datetime_now. now rewrite Hz. Qed.

Lemma astimezone_datetime_now (clock : Z) (z target : tz) :
  astimezone (datetime_now clock (Some z)) (Some target)
  = datetime_now clock (Some target).
Proof.
  rewrite (astimezone_aware _ z) by reflexivity.
  destruct (tz_is target z) eqn:E.
  - apply tz_is_eq in E. now subst.
  - unfold datetime_now at 2 3 4.
    cbv zeta. cbn [wall fold tzinfo]. now rewrite fromutc_utcoffset.
Qed.

Lemma astimezone_twice (dt : datetime tz) (z target : tz) :
  tzinfo dt = Some z ->
  astimezone (astimezone dt (Some target)) (Some target)
  = astimezone dt (Some target).
Proof.
  intros Hz. rewrite (astimezone_aware dt z) by exact Hz.
  destruct (tz_is target z) eqn:E.
  - rewrite (astimezone_aware dt z) by exact Hz. now rewrite E.
  - apply astimezone_datetime_now.
Qed.

Lemma to_utc_aware (r : registry tz) (dt : datetime tz) (z : tz) :
  tzinfo dt = Some z -> to_utc r dt = astimezone dt (Some tz_utc).
Proof. intros Hz. unfold to_utc. now rewrite Hz, gettz_utc. Qed.

Lemma to_utc_naive (r : registry tz) (dt : datetime tz) :
  tzinfo dt = None ->
  to_utc r dt
  = astimezone (replace_tzinfo dt (default_timezone r)) (Some tz_utc).
Proof. intros Hz. unfold to_utc. now rewrite Hz, gettz_utc. Qed.

Lemma to_local_aware (r : registry tz) (dt : datetime tz) (z : tz) :
  tzinfo dt = Some z ->
  to_local r dt = astimezone dt (Some (default_timezone r)).
Proof. intros Hz. unfold to_local. now rewrite Hz. Qed.

Lemma to_system_aware (r : registry tz) (dt : datetime tz) (z : tz) :
  tzinfo dt = Some z -> to_system r dt = astimezone dt (Some tzlocal).
Proof. intros Hz. unfold to_system. now rewrite Hz. Qed.

Lemma to_system_naive (r : registry tz) (dt : datetime tz) :
  tzinfo dt = None ->
  to_system r dt
  = astimezone (replace_tzinfo dt (default_timezone r)) (Some tzlocal).
Proof. intros Hz. unfold to_system. now rewrite Hz. Qed.

Lemma now_utc_eq (clock : Z) :
  now_utc clock = datetime_now clock (Some tz_utc).
Proof. unfold now_utc. now rewrite gettz_utc. Qed.

Lemma instant_datetime_now (clock : Z) (z : tz) :
  instant (datetime_now clock (Some z)) = Some clock.
Proof.
  unfold instant, datetime_now. cbv zeta. cbn [wall fold tzinfo].
  now rewrite fromutc_utcoffset.
Qed.

(** X7: the three readings of the clock denote the time of the call, each in
    its zone: UTC, the zone given (else the default zone), the system
    zone.  In UTC the wall clock is the clock reading itself. *)
Theorem now_denotes_the_clock
    (r : registry tz) (clock : Z) (z : option tz) :
  (instant (now_utc clock) = Some clock
   /\ tzinfo (now_utc clock) = Some tz_utc
   /\ wall (now_utc clock) = clock)
  /\ (instant (now_local r clock z) = Some clock
      /\ tzinfo (now_local r clock z)
         = Some (match z with Some z => z | None => default_timezone r end))
  /\ (instant (now_system clock) = Some clock
      /\ tzinfo (now_system clock) = Some tzlocal).
Proof.
  rewrite now_utc_eq. unfold now_local, now_system.
  rewrite !instant_datetime_now.
  repeat split.
  pose proof (fromutc_utcoffset tz_utc clock) as E.
  rewrite utc_offset_zero in E. cbn [datetime_now wall]. lia.
Qed.

(** X8: converting one reading of the clock gives the reading the other
    function would have given at that time: [to_utc] of a local reading is
    [now_utc], [to_local] of a UTC or system reading is [now_local], and
    [to_system] of a UTC or local reading is [now_system]. *)
Theorem conversions_relate_the_clocks
    (r r' : registry tz) (clock : Z) (z : option tz) :
  to_utc r' (now_local r clock z) = now_utc clock
  /\ to_utc r' (now_system clock) = now_utc clock
  /\ to_local r (now_utc clock) = now_local r clock None
  /\ to_local r (now_system clock) = now_local r clock None
  /\ to_system r' (now_utc clock) = now_system clock
  /\ to_system r' (now_local r clock z) = now_system clock.
Proof.
  rewrite now_utc_eq. unfold now_local, now_system.
  repeat split.
  - erewrite to_utc_aware by reflexivity. apply astimezone_datetime_now.
  - erewrite to_utc_aware by reflexivity. apply astimezone_datetime_now.
  - erewrite to_local_aware by reflexivity. apply astimezone_datetime_now.
  - erewrite to_local_aware by reflexivity. apply astimezone_datetime_now.
  - erewrite to_system_aware by reflexivity. apply astimezone_datetime_now.
  - erewrite to_system_aware by reflexivity. apply astimezone_datetime_now.
Qed.

Lemma wall_to_utc (r : registry tz) (dt : datetime tz) (u : Z) :
  instant dt = Some u -> wall (to_utc r dt) = u.
Proof.
  unfold instant. destruct (tzinfo dt) as [z |] eqn:Hz; [| discriminate].
  intros E. injection E as E.
  rewrite (to_utc_aware r dt z Hz), (astimezone_aware dt z) by exact Hz.
  destruct (tz_is tz_utc z) eqn:I.
  - apply tz_is_eq in I. subst z. rewrite utc_offset_zero in E. lia.
  - rewrite E. pose proof (fromutc_utcoffset tz_utc u) as F.
    rewrite utc_offset_zero in F. cbn [datetime_now wall]. lia.
Qed.

(** X9: [to_utc] is a normal form for instants: its wall clock is the instant
    the datetime denotes, so two datetimes with zones denote the same
    instant exactly when [to_utc] gives them the same reading, and the
    earlier instant gets the smaller reading. *)
Theorem to_utc_canonical
    (r1 r2 : registry tz) (dt1 dt2 : datetime tz) (u1 u2 : Z) :
  instant dt1 = Some u1 ->
  instant dt2 = Some u2 ->
  wall (to_utc r1 dt1) = u1
  /\ (u1 = u2 <-> wall (to_utc r1 dt1) = wall (to_utc r2 dt2))
  /\ (u1 < u2 <-> wall (to_utc r1 dt1) < wall (to_utc r2 dt2)).
Proof.
  intros I1 I2.
  rewrite (wall_to_utc r1 dt1 u1 I1), (wall_to_utc r2 dt2 u2 I2).
  repeat split; auto.
Qed.

(** X10: [to_utc] and [to_system] are idempotent on every datetime, and so is
    [to_local] on a datetime with a zone.  On a naive datetime [to_local]
    only attaches the default zone; applying it again leaves the result
    alone when the default zone is the same object at both calls. *)
Theorem conversions_idempotent
    (r r' : registry tz) (dt : datetime tz) :
  to_utc r' (to_utc r dt) = to_utc r dt
  /\ to_system r' (to_system r dt) = to_system r dt
  /\ (tzinfo dt <> None
      \/ tz_is (default_timezone r) (default_timezone r) = true ->
      to_local r (to_local r dt) = to_local r dt).
Proof.
  destruct (tzinfo dt) as [z |] eqn:Hz.
  - rewrite (to_utc_aware r dt z Hz), (to_system_aware r dt z Hz),
      (to_local_aware r dt z Hz).
    repeat split.
    + erewrite to_utc_aware by (eapply astimezone_tzinfo; exact Hz).
      now apply astimezone_twice with (z := z).
    + erewrite to_system_aware by (eapply astimezone_tzinfo; exact Hz).
      now apply astimezone_twice with (z := z).
    + intros _.
      erewrite to_local_aware by (eapply astimezone_tzinfo; exact Hz).
      now apply astimezone_twice with (z := z).
  - rewrite (to_utc_naive r dt Hz), (to_system_naive r dt Hz).
    repeat split.
    + erewrite to_utc_aware by (eapply astimezone_tzinfo; reflexivity).
      now apply astimezone_twice with (z := default_timezone r).
    + erewrite to_system_aware by (eapply astimezone_tzinfo; reflexivity).
      now apply astimezone_twice with (z := default_timezone r).
    + intros [C | C]; [congruence |].
      unfold to_local at 2 3. rewrite Hz.
      erewrite to_local_aware by reflexivity.
      erewrite astimezone_aware by reflexivity. now rewrite C.
Qed.

(** X11: for a naive datetime and one registry, a detour through the local
    zone does not change what [to_utc] and [to_system] return, and a
    detour through UTC does not change the instant [to_local] gives. *)
Theorem naive_detours (r : registry tz) (dt : datetime tz) :
  tzinfo dt = None ->
  to_utc r (to_local r dt) = to_utc r dt
  /\ to_system r (to_local r dt) = to_system r dt
  /\ instant (to_local r (to_utc r dt)) = instant (to_local r dt)
  /\ instant (to_local r (to_system r dt)) = instant (to_local r dt).
Proof.
  intros Hz.
  assert (L : to_local r dt = replace_tzinfo dt (default_timezone r))
    by (unfold to_local; now rewrite Hz).
  rewrite L, (to_utc_naive r dt Hz), (to_system_naive r dt Hz).
  split; [| split; [| split]].
  - now erewrite to_utc_aware by reflexivity.
  - now erewrite to_system_aware by reflexivity.
  - erewrite to_local_aware by (eapply astimezone_tzinfo; reflexivity).
    erewrite !astimezone_instant
      by (try (eapply astimezone_tzinfo; reflexivity); reflexivity).
    reflexivity.
  - erewrite to_local_aware by (eapply astimezone_tzinfo; reflexivity).
    erewrite !astimezone_instant
      by (try (eapply astimezone_tzinfo; reflexivity); reflexivity).
    reflexivity.
Qed.

(** X12: a name [gettz] does not know clears the registry without an error:
    whatever zone was set before, afterwards the system zone is the
    default again, and every function behaves as if nothing had ever
    been set. *)
Theorem unknown_zone_name_resets
    (r : registry tz) (name : string) (dt : datetime tz) (clock : Z) :
  gettz name = None ->
  let r' := set_default_tz r (TzName name) in
  default_timezone r' = tzlocal
  /\ to_utc r' dt = to_utc initial_registry dt
  /\ to_local r' dt = to_local initial_registry dt
  /\ to_system r' dt = to_system initial_registry dt
  /\ now_local r' clock None = now_system clock.
Proof.
  intros E r'. subst r'. unfold set_default_tz. rewrite E.
  repeat split.
Qed.

End Composition.

(** The laws hold of constant offsets, so the facts above apply to them. *)
Lemma now_denotes_the_clock_witness :
  let r : registry Z := Some hour_us in
  TzLaws Z
  /\ now_utc (9 * hour_us) = mkdt (9 * hour_us) false (Some 0)
  /\ now_local r (9 * hour_us) None
     = mkdt (10 * hour_us) false (Some hour_us)
  /\ now_system (9 * hour_us)
     = mkdt (11 * hour_us) false (Some (2 * hour_us))
  /\ instant (now_local r (9 * hour_us) None) = Some (9 * hour_us)
  /\ instant (now_system (9 * hour_us)) = Some (9 * hour_us).
Proof.
  intros r.
  pose proof (@now_denotes_the_clock
                Z fixed_offset_tz fixed_offset_laws r (9 * hour_us) None)
    as (_ & (L & _) & (S & _)).
  exact (conj fixed_offset_laws
           (conj eq_refl (conj eq_refl (conj eq_refl (conj L S))))).
Defined.

Lemma conversions_relate_the_clocks_witness :
  let r : registry Z := Some hour_us in
  TzLaws Z
  /\ to_utc None (now_local r (9 * hour_us) None) = now_utc (9 * hour_us)
  /\ to_local r (now_utc (9 * hour_us)) = now_local r (9 * hour_us) None
  /\ to_system None (now_utc (9 * hour_us)) = now_system (9 * hour_us).
Proof.
  intros r.
  pose proof (@conversions_relate_the_clocks
                Z fixed_offset_tz fixed_offset_laws r None (9 * hour_us) None)
    as (A & _ & B & _ & C & _).
  exact (conj fixed_offset_laws (conj A (conj B C))).
Defined.

Lemma to_utc_canonical_witness :
  let dt1 : datetime Z := mkdt (14 * hour_us) false (Some (2 * hour_us)) in
  let dt2 : datetime Z := mkdt (13 * hour_us) false (Some hour_us) in
  TzLaws Z
  /\ instant dt1 = Some (12 * hour_us)
  /\ instant dt2 = Some (12 * hour_us)
  /\ wall (to_utc None dt1) = 12 * hour_us
  /\ wall (to_utc None dt1) = wall (to_utc (Some hour_us) dt2).
Proof.
  intros dt1 dt2.
  pose proof (@to_utc_canonical
                Z fixed_offset_tz fixed_offset_laws None (Some hour_us)
                dt1 dt2 (12 * hour_us) (12 * hour_us) eq_refl eq_refl)
    as (A & B & _).
  exact (conj fixed_offset_laws
           (conj eq_refl (conj eq_refl (conj A (proj1 B eq_refl))))).
Defined.

Lemma conversions_idempotent_witness :
  let r : registry Z := Some hour_us in
  let dt : datetime Z := mkdt (12 * hour_us) false None in
  TzLaws Z
  /\ tz_is (default_timezone r) (default_timezone r) = true
  /\ to_utc None (to_utc r dt) = to_utc r dt
  /\ to_system None (to_system r dt) = to_system r dt
  /\ to_local r (to_local r dt) = to_local r dt
  /\ to_local r dt = mkdt (12 * hour_us) false (Some hour_us).
Proof.
  intros r dt.
  assert (I : tz_is (default_timezone r) (default_timezone r) = true)
    by reflexivity.
  pose proof (@conversions_idempotent
                Z fixed_offset_tz fixed_offset_laws r None dt)
    as (A & B & C).
  exact (conj fixed_offset_laws
           (conj I (conj A (conj B (conj (C (or_intror I)) eq_refl))))).
Defined.

Lemma naive_detours_witness :
  let r : registry Z := Some hour_us in
  let dt : datetime Z := mkdt (12 * hour_us) false None in
  TzLaws Z
  /\ tzinfo dt = None
  /\ to_utc r (to_local r dt) = to_utc r dt
  /\ to_system r (to_local r dt) = to_system r dt
  /\ instant (to_local r (to_utc r dt)) = instant (to_local r dt)
  /\ instant (to_local r (to_system r dt)) = instant (to_local r dt).
Proof.
  intros r dt.
  exact (conj fixed_offset_laws
           (conj eq_refl
              (@naive_detours Z fixed_offset_tz fixed_offset_laws r dt
                 eq_refl))).
Defined.

Lemma unknown_zone_name_resets_witness :
  let r : registry Z := Some hour_us in
  let dt : datetime Z := mkdt (12 * hour_us) false None in
  gettz "Mars/Olympus"%string = @None Z
  /\ default_timezone (set_default_tz r (TzName "Mars/Olympus"))
     = 2 * hour_us
  /\ to_local (set_default_tz r (TzName "Mars/Olympus")) dt
     = mkdt (12 * hour_us) false (Some (2 * hour_us)).
Proof.
  intros r dt.
  pose proof (@unknown_zone_name_resets
                Z fixed_offset_tz r "Mars/Olympus"%string dt 0 eq_refl)
    as (A & _ & C & _).
  exact (conj eq_refl (conj A C)).
Defined.

End ClockFacts.

(* ================================================================== *)
(** * Properties of lang/common_data_en.py                             *)
(* ================================================================== *)

Module LexiconFacts.

Import Lexicon.



#[local] Open Scope string_scope.
#[local] Open Scope list_scope.

(** ** Strings *)

Lemma append_s_inj (a b : string) :
  (a ++ "s")%string = (b ++ "s")%string -> a = b.
Proof.
  revert b. induction a as [| c a IH]; intros [| d b] E; cbn in E.
  - reflexivity.
  - injection E as _ E. destruct b; discriminate.
  - injection E as _ E. destruct a; discriminate.
  - injection E as -> E. f_equal. now apply IH.
Qed.

Lemma eqb_append_s (a b : string) :
  String.eqb (a ++ "s") (b ++ "s") = String.eqb a b.
Proof.
  destruct (String.eqb_spec a b) as [-> | N].
  - apply String.eqb_refl.
  - apply String.eqb_neq. intros E. apply N. now apply append_s_inj.
Qed.

Lemma endswith_append (s suffix : string) :
  endswith (s ++ suffix) suffix = true.
Proof.
  induction s as [| c s IH]; cbn.
  - destruct suffix; cbn; [reflexivity |].
    now rewrite Ascii.eqb_refl, String.eqb_refl.
  - rewrite IH. apply orb_true_r.
Qed.

Lemma endswith_iff (s suffix : string) :
  endswith s suffix = true <-> exists pre, s = (pre ++ suffix)%string.
Proof.
  split.
  - induction s as [| c s IH]; cbn [endswith].
    + rewrite orb_false_r. intros E. apply String.eqb_eq in E.
      exists "". now subst.
    + intros E. apply orb_true_iff in E. destruct E as [E | E].
      * apply String.eqb_eq in E. exists "". now rewrite <- E.
      * destruct (IH E) as [pre ->]. exists (String c pre). reflexivity.
  - intros [pre ->]. apply endswith_append.
Qed.


Lemma append_assoc (a b c : string) :
  ((a ++ b) ++ c)%string = (a ++ (b ++ c))%string.
Proof. induction a as [| x a IH]; cbn; [reflexivity | now rewrite IH]. Qed.

Lemma append_empty (a : string) : (a ++ "")%string = a.
Proof. induction a as [| x a IH]; cbn; [reflexivity | now rewrite IH]. Qed.

(** ** Plurals *)

Lemma mem_plurals (w : string) (originals : list string) :
  mem (w ++ "s") (_generate_plurals_en originals) = mem w originals.
Proof.
  unfold mem, _generate_plurals_en.
  induction originals as [| v l IH]; [reflexivity |].
  cbn [map existsb]. now rewrite eqb_append_s, IH.
Qed.

Lemma dict_get_plurals {V : Type} (w : string) (originals : dict string V) :
  dict_get (_generate_plurals_en_dict originals) (w ++ "s")
  = dict_get originals w.
Proof.
  unfold _generate_plurals_en_dict.
  induction originals as [| [k v] l IH]; [reflexivity |].
  cbn [map dict_get fst snd]. rewrite eqb_append_s, IH. reflexivity.
Qed.

(** X13: the plural of a word is looked up as the word is: in the plurals of a
    dictionary the key [w + 's'] has the value [w] had, in the plurals of a
    set [w + 's'] is a member exactly when [w] was; a word that does not
    end in ['s'] is in neither. *)
Theorem plurals_lookup {V : Type}
    (d : dict string V) (s : list string) (w : string) :
  dict_get (_generate_plurals_en_dict d) (w ++ "s") = dict_get d w
  /\ mem (w ++ "s") (_generate_plurals_en s) = mem w s
  /\ (endswith w "s" = false ->
      dict_get (_generate_plurals_en_dict d) w = None
      /\ mem w (_generate_plurals_en s) = false).
Proof.
  split; [apply dict_get_plurals |]. split; [apply mem_plurals |].
  intros E. split.
  - unfold _generate_plurals_en_dict.
    induction d as [| [k v] l IH]; [reflexivity |].
    cbn [map dict_get fst snd].
    destruct (String.eqb_spec (k ++ "s") w) as [<- | _]; [| exact IH].
    now rewrite endswith_append in E.
  - unfold mem, _generate_plurals_en.
    induction s as [| v l IH]; [reflexivity |].
    cbn [map existsb].
    destruct (String.eqb_spec w (v ++ "s")) as [-> | _]; [| exact IH].
    now rewrite endswith_append in E.
Qed.

Lemma plurals_lookup_witness :
  endswith "hundred" "s" = false
  /\ dict_get (_generate_plurals_en_dict [("hundred", 100%Z)]) "hundreds"
     = Some 100%Z
  /\ mem "hundreds" (_generate_plurals_en ["hundred"]) = true
  /\ dict_get (_generate_plurals_en_dict [("hundred", 100%Z)]) "hundred"
     = None
  /\ mem "hundred" (_generate_plurals_en ["hundred"]) = false.
Proof.
  assert (E : endswith "hundred" "s" = false) by reflexivity.
  destruct (plurals_lookup [("hundred", 100%Z)] ["hundred"] "hundred")
    as (A & B & C).
  destruct (C E) as (C1 & C2).
  exact (conj E (conj A (conj B (conj C1 C2)))).
Defined.

(** ** The scale tables *)

Lemma infinite_entries (table : dict magnitude string) (name last : string) :
  filter (fun kv => magnitude_eqb (fst kv) Infinity) table
  = [(Infinity, last)] ->
  In (Infinity, name) table <-> name = last.
Proof.
  intros F. split.
  - intros I.
    assert (I' : In (Infinity, name)
                   (filter (fun kv => magnitude_eqb (fst kv) Infinity)
                      table))
      by (apply filter_In; split; [exact I | reflexivity]).
    rewrite F in I'. destruct I' as [E | []]. now injection E.
  - intros ->.
    assert (I : In (Infinity, last)
                  (filter (fun kv => magnitude_eqb (fst kv) Infinity)
                     table))
      by (rewrite F; left; reflexivity).
    now apply filter_In in I.
Qed.

(** X14: a scale name declared with a magnitude beyond the range of a float
    ([1e309] and up) gets the key [inf].  Each table therefore holds one
    such name, the last one declared; the names declared before it with
    such a magnitude are in neither the table nor the set of multiplier
    words. *)
Theorem scale_names_beyond_float_range :
  (forall name,
      In (Infinity, name) _LONG_SCALE_EN <-> name = "unsexagintillion")
  /\ (forall name,
         In (Infinity, name) _SHORT_SCALE_EN <-> name = "millinillion")
  /\ Forall (fun name => mem name _MULTIPLIES_LONG_SCALE_EN = false)
       [ "duoquinquagintillion"; "sesquinquagintillion" ]
  /\ Forall (fun name => mem name _MULTIPLIES_SHORT_SCALE_EN = false)
       [ "duocentillion"; "trescentillion"; "decicentillion";
         "undecicentillion"; "viginticentillion"; "unviginticentillion";
         "trigintacentillion"; "quadragintacentillion";
         "quinquagintacentillion"; "sexagintacentillion";
         "septuagintacentillion"; "ctogintacentillion";
         "nonagintacentillion"; "ducentillion"; "trecentillion";
         "quadringentillion"; "quingentillion"; "sescentillion";
         "septingentillion"; "octingentillion"; "nongentillion" ]
  /\ mem "unsexagintillion" _MULTIPLIES_LONG_SCALE_EN = true
  /\ mem "millinillion" _MULTIPLIES_SHORT_SCALE_EN = true.
Proof.
  split; [intros name; apply infinite_entries; vm_compute; reflexivity |].
  split; [intros name; apply infinite_entries; vm_compute; reflexivity |].
  split;
    [repeat (apply Forall_cons; [vm_compute; reflexivity |]);
     apply Forall_nil |].
  split;
    [repeat (apply Forall_cons; [vm_compute; reflexivity |]);
     apply Forall_nil |].
  split; vm_compute; reflexivity.
Qed.

Lemma follows_scale_sound (scale : dict magnitude string)
    (ordinals : dict Z string) :
  forallb
    (fun entry =>
       Z.ltb (fst entry) 100
       || existsb
            (fun kv =>
               magnitude_eqb (fst kv) (Finite (fst entry))
               && String.eqb (snd entry) (snd kv ++ "th"))
            scale)
    ordinals = true ->
  forall rank word,
    In (rank, word) ordinals -> (100 <= rank)%Z ->
    exists name,
      In (Finite rank, name) scale /\ word = (name ++ "th")%string.
Proof.
  intros F rank word I B.
  rewrite forallb_forall in F. specialize (F _ I).
  cbn [fst snd] in F.
  apply orb_true_iff in F. destruct F as [F | F];
    [apply Z.ltb_lt in F; lia |].
  apply existsb_exists in F. destruct F as ([m name] & J & E).
  cbn [fst snd] in E. apply andb_true_iff in E. destruct E as [E1 E2].
  exists name. split; [| now apply String.eqb_eq].
  destruct m as [x |]; [| discriminate].
  cbn in E1. apply Z.eqb_eq in E1. now subst.
Qed.

(** X15: the ordinal tables follow the scale tables: from "hundredth" on,
    every ordinal word is a scale name of the same scale with "th"
    appended, and its rank is that name's magnitude. *)
Theorem ordinal_tables_follow_scales (rank : Z) (word : string) :
  (100 <= rank)%Z ->
  (In (rank, word) _SHORT_ORDINAL_EN ->
   exists name,
     In (Finite rank, name) _SHORT_SCALE_EN /\ word = (name ++ "th")%string)
  /\ (In (rank, word) _LONG_ORDINAL_EN ->
      exists name,
        In (Finite rank, name) _LONG_SCALE_EN
        /\ word = (name ++ "th")%string).
Proof.
  intros B. split; intros I.
  - eapply follows_scale_sound; [| exact I | exact B].
    vm_compute. reflexivity.
  - eapply follows_scale_sound; [| exact I | exact B].
    vm_compute. reflexivity.
Qed.

Lemma ordinal_tables_follow_scales_witness :
  (100 <= 10 ^ 9)%Z
  /\ In (10 ^ 9, "billionth")%Z _SHORT_ORDINAL_EN
  /\ exists name,
       In (Finite (10 ^ 9), name) _SHORT_SCALE_EN
       /\ "billionth" = (name ++ "th")%string.
Proof.
  assert (B : (100 <= 10 ^ 9)%Z) by (vm_compute; discriminate).
  assert (I : In (10 ^ 9, "billionth")%Z _SHORT_ORDINAL_EN)
    by (vm_compute; tauto).
  exact (conj B (conj I
           (proj1 (ordinal_tables_follow_scales (10 ^ 9) "billionth" B) I))).
Defined.

(** ** Words and their numbers *)

Lemma word_determines_key {K : Type} (table : dict K string) :
  NoDup (values table) ->
  forall a b word, In (a, word) table -> In (b, word) table -> a = b.
Proof.
  unfold values. induction table as [| [k w] l IH]; intros N a b word Ia Ib;
    [destruct Ia |].
  cbn [map snd] in N. inversion N as [| ? ? Nw Nl]; subst.
  destruct Ia as [Ea | Ia]; destruct Ib as [Eb | Ib].
  - congruence.
  - injection Ea as -> ->. exfalso. apply Nw.
    apply in_map_iff. exists (b, word). now split.
  - injection Eb as -> ->. exfalso. apply Nw.
    apply in_map_iff. exists (a, word). now split.
  - now apply (IH Nl a b word).
Qed.

Lemma words_distinct (l : list string) :
  nodup string_dec l = l -> NoDup l.
Proof. intros E. rewrite <- E. apply NoDup_nodup. Qed.

(** X16: no table names a word twice: in each table from numbers to words a
    word belongs to one number only, so the table can be inverted without
    loss. *)
Theorem tables_name_no_word_twice (word : string) :
  (forall a b : Z,
      In (a, word) _NUM_STRING_EN -> In (b, word) _NUM_STRING_EN -> a = b)
  /\ (forall a b : Z,
         In (a, word) _FRACTION_STRING_EN ->
         In (b, word) _FRACTION_STRING_EN -> a = b)
  /\ (forall a b : Z,
         In (a, word) _SHORT_ORDINAL_EN ->
         In (b, word) _SHORT_ORDINAL_EN -> a = b)
  /\ (forall a b : Z,
         In (a, word) _LONG_ORDINAL_EN ->
         In (b, word) _LONG_ORDINAL_EN -> a = b)
  /\ (forall a b : magnitude,
         In (a, word) _SHORT_SCALE_EN ->
         In (b, word) _SHORT_SCALE_EN -> a = b)
  /\ (forall a b : magnitude,
         In (a, word) _LONG_SCALE_EN ->
         In (b, word) _LONG_SCALE_EN -> a = b).
Proof.
  repeat match goal with |- _ /\ _ => split end;
    intros a b; apply word_determines_key; apply words_distinct;
    vm_compute; reflexivity.
Qed.

Lemma in_table_iff (table : dict Z string) (n : Z) (word : string) :
  In (n, word) table
  <-> existsb (fun kv => Z.eqb (fst kv) n && String.eqb (snd kv) word) table
      = true.
Proof.
  rewrite existsb_exists. split.
  - intros I. exists (n, word). split; [exact I |]. cbn [fst snd].
    now rewrite Z.eqb_refl, String.eqb_refl.
  - intros ([k w] & I & E). cbn [fst snd] in E.
    apply andb_true_iff in E. destruct E as [E1 E2].
    apply Z.eqb_eq in E1. apply String.eqb_eq in E2. now subst.
Qed.

Lemma not_a_value {K : Type} (table : dict K string) (word : string) :
  mem word (values table) = false -> forall k, ~ In (k, word) table.
Proof.
  unfold mem, values. intros E k I.
  assert (T : existsb (String.eqb word) (map snd table) = true).
  { apply existsb_exists. exists word. split; [| apply String.eqb_refl].
    apply in_map_iff. exists (k, word). now split. }
  congruence.
Qed.

Lemma in_exceptions_iff (n : Z) (l : list Z) :
  In n l <-> existsb (Z.eqb n) l = true.
Proof.
  rewrite existsb_exists. split.
  - intros I. exists n. split; [exact I | apply Z.eqb_refl].
  - intros (m & I & E). apply Z.eqb_eq in E. now subst.
Qed.

(** X17: from "third" to "nineteenth" the fraction table uses the word of the
    ordinal table, with four exceptions: its words for 4, 8, 12 and 20
    ("forth", "eigth", "twelveth", "twentyith") are no ordinal words at
    all; "half" stands for 2. *)
Theorem fraction_words_and_ordinals (n : Z) (word : string) :
  In (n, word) _FRACTION_STRING_EN ->
  (In (n, word) _ORDINAL_BASE_EN <-> ~ In n [2; 4; 8; 12; 20]%Z)
  /\ (In n [2; 4; 8; 12; 20]%Z ->
      forall rank, ~ In (rank, word) _SHORT_ORDINAL_EN
                   /\ ~ In (rank, word) _LONG_ORDINAL_EN).
Proof.
  intros I. rewrite in_table_iff, !in_exceptions_iff.
  unfold _FRACTION_STRING_EN in I. cbn [In] in I.
  repeat (destruct I as [I | I];
          [injection I as <- <-;
           split;
           [ split;
             [ intros A C; vm_compute in A; vm_compute in C; discriminate
             | intros C;
               first [ vm_compute; reflexivity
                     | exfalso; apply C; vm_compute; reflexivity ] ]
           | intros C;
             first [ vm_compute in C; discriminate
                   | intros rank; split; apply not_a_value;
                     vm_compute; reflexivity ] ] |]).
  destruct I.
Qed.

Lemma fraction_words_and_ordinals_witness :
  In (4, "forth")%Z _FRACTION_STRING_EN
  /\ ~ In (4, "forth")%Z _ORDINAL_BASE_EN
  /\ In (4, "fourth")%Z _ORDINAL_BASE_EN
  /\ In (5, "fifth")%Z _FRACTION_STRING_EN
  /\ In (5, "fifth")%Z _ORDINAL_BASE_EN.
Proof.
  assert (I4 : In (4, "forth")%Z _FRACTION_STRING_EN) by (vm_compute; tauto).
  assert (I5 : In (5, "fifth")%Z _FRACTION_STRING_EN) by (vm_compute; tauto).
  assert (O4 : In (4, "fourth")%Z _ORDINAL_BASE_EN) by (vm_compute; tauto).
  assert (E4 : In 4%Z [2; 4; 8; 12; 20]%Z) by (right; left; reflexivity).
  assert (E5 : ~ In 5%Z [2; 4; 8; 12; 20]%Z)
    by (intros C; repeat (destruct C as [C | C]; [discriminate |]);
        destruct C).
  exact (conj I4
           (conj (fun C => proj1 (proj1 (fraction_words_and_ordinals 4 "forth" I4))
                             C E4)
              (conj O4
                 (conj I5
                    (proj2 (proj1 (fraction_words_and_ordinals 5 "fifth" I5))
                       E5))))).
Defined.



(** ** Question rules *)




Lemma length_flat_map_const {A B : Type} (f : A -> list B) (k : nat)
    (l : list A) :
  (forall x, List.length (f x) = k) ->
  List.length (flat_map f l) = (List.length l * k)%nat.
Proof.
  intros E. induction l as [| x l IH]; [reflexivity |].
  cbn [flat_map]. rewrite length_app, E, IH. cbn [List.length]. lia.
Qed.

(** X19: the rules come in blocks: one "name" rule and four rules per question
    word for every entity of the extended list, which holds every entity
    given and at most one plural for each.  Without question words, or
    with an empty list of them, "what" and "which" are used; without
    entities there are no rules. *)
Theorem entity_rules_count
    (entities : list string) (qwords : option (list string)) :
  let used :=
    match qwords with
    | Some (qw :: rest) => qw :: rest
    | Some [] | None => ["what"; "which"]
    end in
  let rules := fst (_generate_entity_rules entities qwords) in
  let extended := snd (_generate_entity_rules entities qwords) in
  List.length rules
  = (List.length extended * (1 + 4 * List.length used))%nat
  /\ (List.length entities <= List.length extended
      <= 2 * List.length entities)%nat
  /\ _generate_entity_rules entities qwords
     = _generate_entity_rules entities (Some used)
  /\ _generate_entity_rules [] qwords = ([], []).
Proof.
  intros used rules extended. subst rules extended.
  unfold _generate_entity_rules. cbn [fst snd]. fold used.
  split; [| split; [| split]].
  - apply length_flat_map_const. intros ent. cbn [List.length]. f_equal.
    rewrite (length_flat_map_const _ 4); [lia | reflexivity].
  - rewrite length_app, length_map.
    pose proof (filter_length_le
                  (fun ent => negb (endswith ent "s")
                              && negb (endswith ent "*")) entities).
    lia.
  - subst used. destruct qwords as [[| qw rest] |]; reflexivity.
  - reflexivity.
Qed.


(** X20: every generated rule captures a query and names an entity of the
    extended list: it contains the placeholder "{query}" and that
    entity. *)
Theorem entity_rules_shape
    (entities : list string) (qwords : option (list string)) (rule : string) :
  In rule (fst (_generate_entity_rules entities qwords)) ->
  exists ent,
    In ent (snd (_generate_entity_rules entities qwords))
    /\ (exists pre post, rule = (pre ++ "{query}" ++ post)%string)
    /\ (exists pre post, rule = (pre ++ ent ++ post)%string).
Proof.
  unfold _generate_entity_rules. cbn [fst snd].
  set (used := match qwords with
               | Some (qw :: rest) => qw :: rest
               | _ => ["what"; "which"]
               end).
  set (extended := entities ++ _).
  intros I. apply in_flat_map in I. destruct I as (ent & Ie & I).
  exists ent. split; [exact Ie |].
  destruct I as [<- | I].
  - split.
    + exists ("name * " ++ ent ++ " ")%string, "".
      now rewrite !append_assoc.
    + exists "name * ", " {query}". reflexivity.
  - apply in_flat_map in I. destruct I as (qw & _ & I).
    destruct I as [<- | [<- | [<- | [<- | []]]]].
    + split.
      * exists (qw ++ " " ++ ent ++ " ")%string, "".
        now rewrite !append_assoc.
      * exists (qw ++ " ")%string, " {query}". now rewrite !append_assoc.
    + split.
      * exists (qw ++ " ")%string, (" " ++ ent)%string.
        now rewrite !append_assoc.
      * exists (qw ++ " {query} ")%string, "".
        now rewrite !append_assoc, append_empty.
    + split.
      * exists (qw ++ " {property} " ++ ent ++ " ")%string, "".
        now rewrite !append_assoc.
      * exists (qw ++ " {property} ")%string, " {query}".
        now rewrite !append_assoc.
    + split.
      * exists "", (" " ++ qw ++ " " ++ ent)%string. reflexivity.
      * exists ("{query} " ++ qw ++ " ")%string, "".
        now rewrite !append_assoc, append_empty.
Qed.

Lemma entity_rules_shape_witness :
  In "where {query} peaks"
    (fst (_generate_entity_rules ["mountain*"; "peak"]
            (Some ["what"; "which"; "where"])))
  /\ exists ent,
       In ent (snd (_generate_entity_rules ["mountain*"; "peak"]
                      (Some ["what"; "which"; "where"])))
       /\ (exists pre post,
              "where {query} peaks" = (pre ++ "{query}" ++ post)%string)
       /\ (exists pre post,
              "where {query} peaks" = (pre ++ ent ++ post)%string).
Proof.
  assert (I : In "where {query} peaks"
                (fst (_generate_entity_rules ["mountain*"; "peak"]
                        (Some ["what"; "which"; "where"]))))
    by (vm_compute; tauto).
  exact (conj I (entity_rules_shape _ _ _ I)).
Defined.

Lemma filter_plurals (l : list string) :
  filter (fun ent => negb (endswith ent "s") && negb (endswith ent "*"))
    (map (fun ent => (ent ++ "s")%string) l) = [].
Proof.
  induction l as [| x l IH]; [reflexivity |].
  cbn [map filter]. now rewrite endswith_append.
Qed.

(** X21: the call extends the list it is given: afterwards the list holds the
    entities followed by the plurals of those that end neither in 's' nor
    in '*'.  The extension is not idempotent: a second call on the same
    list appends the same plurals once more. *)
Theorem entity_rules_extend_argument
    (entities : list string) (qwords : option (list string)) :
  exists plurals,
    snd (_generate_entity_rules entities qwords) = entities ++ plurals
    /\ (forall name,
           In name plurals
           <-> exists ent,
                 In ent entities /\ name = (ent ++ "s")%string
                 /\ endswith ent "s" = false /\ endswith ent "*" = false)
    /\ (forall qwords',
           snd (_generate_entity_rules (entities ++ plurals) qwords')
           = entities ++ plurals ++ plurals)
    /\ (plurals = [] <->
        forall ent, In ent entities ->
                    endswith ent "s" = true \/ endswith ent "*" = true).
Proof.
  unfold _generate_entity_rules. cbn [fst snd].
  set (keep := fun ent => negb (endswith ent "s") && negb (endswith ent "*")).
  exists (map (fun ent => (ent ++ "s")%string) (filter keep entities)).
  split; [reflexivity |]. split; [| split].
  - intros name. rewrite in_map_iff. split.
    + intros (ent & <- & I). apply filter_In in I. destruct I as [I K].
      unfold keep in K. apply andb_true_iff in K.
      rewrite !negb_true_iff in K. exists ent. tauto.
    + intros (ent & I & -> & K1 & K2). exists ent. split; [reflexivity |].
      apply filter_In. split; [exact I |]. unfold keep. now rewrite K1, K2.
  - intros _. rewrite filter_app. fold keep.
    unfold keep at 2. rewrite filter_plurals. fold keep.
    now rewrite app_nil_r, <- app_assoc.
  - split.
    + intros E ent I.
      destruct (keep ent) eqn:K.
      * assert (J : In ent (filter keep entities))
          by (apply filter_In; now split).
        apply map_eq_nil in E. rewrite E in J. destruct J.
      * unfold keep in K. apply andb_false_iff in K.
        rewrite !negb_false_iff in K. exact K.
    + intros A. replace (filter keep entities) with (@nil string);
        [reflexivity |].
      symmetry. induction entities as [| x l IH]; [reflexivity |].
      cbn [filter].
      assert (K : keep x = false).
      { unfold keep. destruct (A x (or_introl eq_refl)) as [-> | ->];
          [reflexivity | apply andb_false_r]. }
      rewrite K. apply IH. intros ent I. apply A. now right.
Qed.

End LexiconFacts.
